(** * ai_resume: the Flask resume analyser of [app.py]

    A shallow embedding of [app.py]: the text extractor
    [extract_text_from_pdf], the page route [index] and the request
    handler [analyze_resume] with its prompt construction and its retry
    loop around the Gemini client, followed by the properties of the
    handler that the specification states.

    Python values are modelled as follows.
    - [str] is [string]; a character is a code point below 256.
    - [int] is [Z].
    - An expression that may raise is a [result]: [Return v] or
      [Raise e], where [e] stands for an instance of a subclass of
      [Exception].
    - Code with side effects (printing, calling the Gemini client,
      sleeping) lives in the monad [M], which threads a [World] that
      records these effects and keeps them when an exception is raised. *)

From Stdlib Require Import String Ascii List ZArith Bool Lia.
From Stdlib Require Import Numbers.DecimalString.
Import ListNotations.
Local Open Scope string_scope.
Local Open Scope Z_scope.

(* ================================================================= *)
(** ** Python built-ins used by [app.py] *)

Module Py.

(** The line feed, written [\n] in the source. *)
Definition nl : string := String "010" EmptyString.

(** [c.isspace()] for a code point below 256: the ASCII controls
    9-13 and 28-31, the space, NEL (133) and the no-break space (160). *)
Definition isspace (c : ascii) : bool :=
  let n := N.to_nat (N_of_ascii c) in
  ((9 <=? n) && (n <=? 13))%nat || ((28 <=? n) && (n <=? 32))%nat
  || (n =? 133)%nat || (n =? 160)%nat.

(** [s.lstrip()] *)
Fixpoint lstrip (s : string) : string :=
  match s with
  | EmptyString => EmptyString
  | String c s' => if isspace c then lstrip s' else s
  end.

(** [s.rstrip()] *)
Fixpoint rstrip (s : string) : string :=
  match s with
  | EmptyString => EmptyString
  | String c s' =>
      match rstrip s' with
      | EmptyString => if isspace c then EmptyString else String c EmptyString
      | r => String c r
      end
  end.

(** [s.strip()] *)
Definition strip (s : string) : string := rstrip (lstrip s).

(** [c.lower()] for a code point below 256: A-Z and the accented
    capitals 192-222 (but not the multiplication sign, 215) move up
    by 32. *)
Definition lower_char (c : ascii) : ascii :=
  let n := N.to_nat (N_of_ascii c) in
  if ((65 <=? n) && (n <=? 90))%nat
     || ((192 <=? n) && (n <=? 222) && negb (n =? 215))%nat
  then ascii_of_nat (n + 32)
  else c.

(** [s.lower()] *)
Fixpoint lower (s : string) : string :=
  match s with
  | EmptyString => EmptyString
  | String c s' => String (lower_char c) (lower s')
  end.

(** [s.endswith(suffix)] *)
Definition endswith (s suffix : string) : bool :=
  let n := String.length s in
  let k := String.length suffix in
  (k <=? n)%nat && String.eqb (substring (n - k) k s) suffix.

(** Truth value of a [str]: only the empty string is false. *)
Definition truthy (s : string) : bool :=
  match s with
  | EmptyString => false
  | String _ _ => true
  end.

(** [str(n)] for an [int], as an f-string formats it. *)
Definition str_of_int (n : Z) : string :=
  NilZero.string_of_int (Z.to_int n).

(** [range(n)] *)
Definition range (n : Z) : list Z :=
  map Z.of_nat (seq 0 (Z.to_nat n)).

(** An exception instance, with the text [str(e)] gives for it.
    [APIError] stands for [google.genai.errors.APIError] and its
    subclasses, [Exception] for every other subclass of [Exception]. *)
Inductive exn : Type :=
| APIError (msg : string)
| Exception (msg : string).

Definition str (e : exn) : string :=
  match e with
  | APIError msg => msg
  | Exception msg => msg
  end.

Definition isinstance_APIError (e : exn) : bool :=
  match e with
  | APIError _ => true
  | Exception _ => false
  end.

(** The outcome of evaluating an expression. *)
Inductive result (A : Type) : Type :=
| Return (a : A)
| Raise (e : exn).
Arguments Return {A} a.
Arguments Raise {A} e.

(** [d[key]] on a werkzeug [MultiDict]: the first value stored under
    [key]; [None] here when [key not in d]. *)
Fixpoint lookup {V : Type} (key : string) (d : list (string * V)) : option V :=
  match d with
  | [] => None
  | (k, v) :: d' => if String.eqb k key then Some v else lookup key d'
  end.

End Py.
Import Py.

(* ================================================================= *)
(** ** Effects: the world and the monad [M] *)

(** What the process does to the outside, in the order it does it. *)
Inductive event : Type :=
| Called (model contents system_instruction : string)
    (* client.models.generate_content(model=, contents=, config=) *)
| Slept (seconds : Z).
    (* time.sleep(seconds) *)

Record World : Type := mkWorld {
  trace : list event;      (* calls to the Gemini client and sleeps *)
  stdout : list string     (* lines written by print *)
}.

Definition is_call (ev : event) : bool :=
  match ev with
  | Called _ _ _ => true
  | Slept _ => false
  end.

(** How many times the Gemini client has been invoked. *)
Definition call_count (w : World) : nat :=
  List.length (filter is_call (trace w)).

(** The sleeps, in order. *)
Fixpoint sleeps (t : list event) : list Z :=
  match t with
  | [] => []
  | Slept s :: t' => s :: sleeps t'
  | Called _ _ _ :: t' => sleeps t'
  end.

Definition M (A : Type) : Type := World -> result A * World.

Definition ret {A : Type} (a : A) : M A := fun w => (Return a, w).

Definition bind {A B : Type} (m : M A) (k : A -> M B) : M B :=
  fun w =>
    match m w with
    | (Return a, w') => k a w'
    | (Raise e, w') => (Raise e, w')
    end.

(** [try: m  except Exception as e: handler(e)] *)
Definition try_except {A : Type} (m : M A) (handler : exn -> M A) : M A :=
  fun w =>
    match m w with
    | (Return a, w') => (Return a, w')
    | (Raise e, w') => handler e w'
    end.

(** An expression without effects, which may raise. *)
Definition eval {A : Type} (r : result A) : M A := fun w => (r, w).

Declare Scope M_scope.
Delimit Scope M_scope with M.
Notation "x <- m ;; k" := (bind m (fun x => k))
  (at level 61, m at next level, right associativity) : M_scope.
Notation "m ;;; k" := (bind m (fun _ => k))
  (at level 61, right associativity) : M_scope.
Local Open Scope M_scope.

(** [print(line)] *)
Definition print (line : string) : M unit :=
  fun w => (Return tt, mkWorld (trace w) (stdout w ++ [line])).

(** [time.sleep(seconds)] *)
Definition time_sleep (seconds : Z) : M unit :=
  fun w => (Return tt, mkWorld (trace w ++ [Slept seconds]) (stdout w)).

(* ================================================================= *)
(** ** The collaborators: Gemini client, pypdf, Flask *)

(** The Gemini client. What an invocation answers (the [text] of the
    response, or an exception) may depend on its arguments and on how
    many invocations came before it, which is what a stub that fails
    twice and then succeeds needs. *)
Record Client : Type := mkClient {
  generate_content :
    nat -> forall (model contents system_instruction : string), result string
}.

(** [client.models.generate_content(...)] followed by [response.text]. *)
Definition models_generate_content
    (client : Client) (model contents system_instruction : string) : M string :=
  fun w =>
    (generate_content client (call_count w) model contents system_instruction,
     mkWorld (trace w ++ [Called model contents system_instruction]) (stdout w)).

(** A page of a parsed PDF, given by what [page.extract_text()] does. *)
Definition Page : Type := result string.

Definition extract_text (page : Page) : result string := page.

(** werkzeug's [FileStorage]: the declared file name and what
    [read()] does. *)
Record FileStorage : Type := mkFileStorage {
  filename : string;
  read : result (list Byte.byte)
}.

(** Flask's [request]: the declared length of the body and the parts of
    the multipart form. *)
Record Request : Type := mkRequest {
  content_length : Z;
  files : list (string * FileStorage);
  form : list (string * string)
}.

(** [app.config['MAX_CONTENT_LENGTH']] *)
Definition MAX_CONTENT_LENGTH : Z := 16 * 1024 * 1024.

(** werkzeug's answer to a body longer than [MAX_CONTENT_LENGTH]. *)
Definition RequestEntityTooLarge : exn :=
  Exception "413 Request Entity Too Large: The data value transmitted exceeds the capacity limit.".

(** [request.files] and [request.form]: the first access to either
    parses the body, and that raises when the body is longer than
    [MAX_CONTENT_LENGTH]. *)
Definition load_form_data (request : Request) : result unit :=
  if MAX_CONTENT_LENGTH <? content_length request
  then Raise RequestEntityTooLarge
  else Return tt.

Definition request_files (request : Request) : M (list (string * FileStorage)) :=
  load_form_data_ok <- eval (load_form_data request) ;;
  ret (files request).

Definition request_form (request : Request) : M (list (string * string)) :=
  load_form_data_ok <- eval (load_form_data request) ;;
  ret (form request).

(** A JSON value, as far as [jsonify] is given one here. *)
Inductive json : Type :=
| JStr (s : string)
| JBool (b : bool).

(** What a view function returns: [jsonify(body)] (status 200),
    [jsonify(body), status], or a rendered template. *)
Inductive ViewResult : Type :=
| Jsonify (body : list (string * json)) (status : Z)
| RenderTemplate (name : string) (context : list (string * string)).

(* ================================================================= *)
(** ** [app.py] *)

Definition MODEL_NAME : string := "gemini-2.0-flash".

(** Module level: the client initialisation. [GEMINI_API_KEY] and the
    constructor [genai.Client] are arguments; the result is the value
    of the global [client]. *)
Definition init_client
    (GEMINI_API_KEY : string) (genai_Client : string -> result Client)
  : M (option Client) :=
  if truthy GEMINI_API_KEY then
    try_except
      (client <- eval (genai_Client GEMINI_API_KEY) ;;
       print "Gemini API Client Initialized." ;;;
       ret (Some client))
      (fun e =>
         print ("Error initializing Gemini client: " ++ str e) ;;;
         ret None)
  else
    print "Warning: GEMINI_API_KEY not set. API calls will be disabled." ;;;
    ret None.

Section App.

(** [pypdf.PdfReader] followed by [reader.pages]: the pages of the
    document, or a parse error. *)
Variable PdfReader : list Byte.byte -> result (list Page).

(** The [for page in reader.pages] loop. *)
Fixpoint extract_pages (pages : list Page) (text : string) : M string :=
  match pages with
  | [] => ret text
  | page :: pages' =>
      page_text <- eval (extract_text page) ;;
      extract_pages pages'
        (if truthy page_text then text ++ page_text ++ nl else text)
  end.

Definition extract_text_from_pdf (pdf_file_stream : list Byte.byte)
  : M (option string) :=
  try_except
    (pages <- eval (PdfReader pdf_file_stream) ;;
     text <- extract_pages pages "" ;;
     ret (Some (strip text)))
    (fun e =>
       print ("Error extracting text from PDF: " ++ str e) ;;;
       ret None).

(** The route [/]. *)
Definition index : M (option ViewResult) :=
  ret (Some (RenderTemplate "index.html" [("title", "AI Resume Analyzer")])).

Definition system_instruction : string :=
  "You are a world-class Applicant Tracking System (ATS) and Career Coach. "
  ++ "Your task is to analyze a candidate's resume against a specific job description. "
  ++ "Provide the analysis in structured markdown format with four distinct sections. "
  ++ "Ensure the output is clean, well-formatted markdown, ready for display.".

(** The f-string [user_prompt], line by line. *)
Definition user_prompt (job_description resume_text : string) : string :=
  nl
  ++ "        Analyze the candidate's resume based on the following job description." ++ nl
  ++ nl
  ++ "        ## Job Description:" ++ nl
  ++ "        ---" ++ nl
  ++ "        " ++ job_description ++ nl
  ++ "        ---" ++ nl
  ++ nl
  ++ "        ## Candidate Resume Text (Extracted):" ++ nl
  ++ "        ---" ++ nl
  ++ "        " ++ resume_text ++ nl
  ++ "        ---" ++ nl
  ++ nl
  ++ "        Your analysis must strictly follow this structure:" ++ nl
  ++ nl
  ++ "        1.  **ATS Match Score:** A percentage score out of 100 (e.g., 78/100) indicating the match level. Use bold text for the score." ++ nl
  ++ "        2.  **Missing Keywords/Skills:** A bulleted list of up to 5 essential skills/keywords mentioned in the Job Description but *missing* from the Resume. If none are missing, state that clearly." ++ nl
  ++ "        3.  **Summary of Strengths:** A concise, single paragraph highlighting the candidate's best relevant qualifications for the role." ++ nl
  ++ "        4.  **Actionable Improvement Suggestions:** A bulleted list of 3-5 concrete, specific suggestions on how to modify the resume text to increase the match score." ++ nl
  ++ "        ".

Definition MAX_RETRIES : Z := 3.

(** One turn of [for attempt in range(MAX_RETRIES)]: [Some v] when
    the body executes [return v], [None] when the loop goes on. *)
Definition attempt_body (client : Client) (user_prompt : string) (attempt : Z)
  : M (option ViewResult) :=
  try_except
    (print ("Calling Gemini API (Attempt " ++ str_of_int (attempt + 1) ++ ")...") ;;;
     response_text <-
       models_generate_content client MODEL_NAME user_prompt system_instruction ;;
     ret (Some (Jsonify [("success", JBool true); ("analysis", JStr response_text)] 200)))
    (fun e =>
       if isinstance_APIError e then
         print ("Gemini API Error on attempt " ++ str_of_int (attempt + 1)
                ++ ": " ++ str e) ;;;
         if attempt <? MAX_RETRIES - 1 then
           time_sleep (2 ^ attempt) ;;;
           ret None
         else
           ret (Some (Jsonify
             [("error", JStr ("Gemini API Error after " ++ str_of_int MAX_RETRIES
                              ++ " attempts: " ++ str e))] 500))
       else
         print ("Unexpected error during Gemini API call: " ++ str e) ;;;
         ret (Some (Jsonify [("error", JStr ("Unexpected error: " ++ str e))] 500))).

(** The [for] loop over the attempts; [None] when it runs to its
    end without a [return]. *)
Fixpoint retry_loop (client : Client) (user_prompt : string) (attempts : list Z)
  : M (option ViewResult) :=
  match attempts with
  | [] => ret None
  | attempt :: attempts' =>
      returned <- attempt_body client user_prompt attempt ;;
      match returned with
      | Some v => ret (Some v)
      | None => retry_loop client user_prompt attempts'
      end
  end.

(** The body of the outer [try] of [analyze_resume]. *)
Definition analysis (client : Client) (resume_file : FileStorage)
    (job_description : string) : M (option ViewResult) :=
  pdf_stream <- eval (read resume_file) ;;
  resume_text <- extract_text_from_pdf pdf_stream ;;
  match resume_text with
  | None | Some EmptyString =>      (* if not resume_text *)
      ret (Some (Jsonify
        [("error", JStr "Could not extract readable text from PDF. The document might be an image-only PDF.")]
        500))
  | Some resume_text =>
      retry_loop client (user_prompt job_description resume_text) (range MAX_RETRIES)
  end.

(** The route [/analyze]. The result is what the view function
    returns: [Return (Some v)] for [return v], [Return None] when the
    function ends without a [return], [Raise e] when [e] leaves it. *)
Definition analyze_resume (client : option Client) (request : Request)
  : M (option ViewResult) :=
  match client with
  | None =>
      ret (Some (Jsonify
        [("error", JStr "Gemini API client not initialized. Check server logs for API Key error.")]
        500))
  | Some client =>
      request_files_ <- request_files request ;;
      match lookup "resume" request_files_ with
      | None =>
          ret (Some (Jsonify
            [("error", JStr "Missing required data: resume file or job description.")] 400))
      | Some resume_file =>
          request_form_ <- request_form request ;;
          match lookup "job_description" request_form_ with
          | None =>
              ret (Some (Jsonify
                [("error", JStr "Missing required data: resume file or job description.")] 400))
          | Some job_description =>
              if String.eqb (filename resume_file) "" then
                ret (Some (Jsonify [("error", JStr "No resume file selected.")] 400))
              else if negb (endswith (lower (filename resume_file)) ".pdf") then
                ret (Some (Jsonify
                  [("error", JStr "Invalid file type. Please upload a PDF file.")] 400))
              else if negb (truthy (strip job_description)) then
                ret (Some (Jsonify [("error", JStr "Job description cannot be empty.")] 400))
              else
                try_except
                  (analysis client resume_file job_description)
                  (fun e =>
                     print ("An error occurred during analysis setup: " ++ str e) ;;;
                     ret (Some (Jsonify
                       [("error", JStr ("Internal Server Error: " ++ str e))] 500)))
          end
      end
  end.

End App.

(* ================================================================= *)
(** ** Stubs and sample requests *)

Module Stub.

(** A world in which nothing has happened yet. *)
Definition w0 : World := mkWorld [] [].

(** A Gemini client that answers its invocations from a script, in
    order, and raises an unexpected exception once the script is
    used up. *)
Definition scripted (script : list (result string)) : Client :=
  mkClient (fun n _ _ _ => nth n script (Raise (Exception "stub exhausted"))).

(** A PDF parser that finds the given pages in every document. *)
Definition reader (pages : list Page) : list Byte.byte -> result (list Page) :=
  fun _ => Return pages.

(** A PDF parser that rejects every document. *)
Definition broken_reader : list Byte.byte -> result (list Page) :=
  fun _ => Raise (Exception "EOF marker not found").

(** A well-formed upload of 2048 bytes declared length. *)
Definition upload (name job_description : string) : Request :=
  mkRequest 2048
    [("resume", mkFileStorage name (Return []))]
    [("job_description", job_description)].

Definition resume_pdf : FileStorage := mkFileStorage "resume.pdf" (Return []).

Definition job : string := "Senior Go Engineer, 3+ years".

Definition good_request : Request := upload "resume.pdf" job.

Definition unreadable_pdf : FileStorage :=
  mkFileStorage "resume.pdf" (Raise (Exception "I/O operation on closed file.")).

(** An upload whose file cannot be read. *)
Definition unreadable_request : Request :=
  mkRequest 2048
    [("resume", unreadable_pdf)]
    [("job_description", job)].

(** A request without the [job_description] field. *)
Definition no_description_request : Request :=
  mkRequest 2048 [("resume", resume_pdf)] [].

(** A request whose body is one byte longer than the limit. *)
Definition oversized_request : Request :=
  mkRequest (MAX_CONTENT_LENGTH + 1)
    [("resume", resume_pdf)]
    [("job_description", job)].

(** An empty form. *)
Definition empty_request : Request := mkRequest 0 [] [].

Definition one_page : list Page :=
  [Return "Senior Backend Engineer, 5 years Go experience"].

(** A scanned document: one page of blanks, one empty page. *)
Definition blank_pages : list Page := [Return "  "; Return ""].

(** Two rate-limit errors, then an answer. *)
Definition fails_twice : Client :=
  scripted [Raise (APIError "429 RESOURCE_EXHAUSTED");
            Raise (APIError "503 UNAVAILABLE");
            Return "**85/100**"].

(** Three API errors. *)
Definition fails_always : Client :=
  scripted [Raise (APIError "429 RESOURCE_EXHAUSTED");
            Raise (APIError "503 UNAVAILABLE");
            Raise (APIError "401 UNAUTHENTICATED")].

(** An API error, then an exception of another kind. *)
Definition breaks_on_second : Client :=
  scripted [Raise (APIError "429 RESOURCE_EXHAUSTED");
            Raise (Exception "Connection reset by peer")].

(** A constructor of the client that rejects every key. *)
Definition rejecting_constructor : string -> result Client :=
  fun _ => Raise (Exception "Invalid API key").

End Stub.

(* ================================================================= *)
(** ** Vocabulary of the specification *)

(** Every character of [s] is whitespace; the empty string is blank. *)
Fixpoint blank (s : string) : bool :=
  match s with
  | EmptyString => true
  | String c s' => isspace c && blank s'
  end.

(** The texts, each followed by a line feed: what the page loop
    accumulates. *)
Fixpoint lines (texts : list string) : string :=
  match texts with
  | [] => ""
  | t :: texts' => t ++ nl ++ lines texts'
  end.

(** The texts with a line feed between neighbours. *)
Fixpoint join_lines (texts : list string) : string :=
  match texts with
  | [] => ""
  | [t] => t
  | t :: texts' => t ++ nl ++ join_lines texts'
  end.

(** The texts of the pages in order, or the first exception that
    [extract_text] raises. *)
Fixpoint page_texts (pages : list Page) : result (list string) :=
  match pages with
  | [] => Return []
  | Raise e :: _ => Raise e
  | Return t :: pages' =>
      match page_texts pages' with
      | Return ts => Return (t :: ts)
      | Raise e => Raise e
      end
  end.

Definition page_raises (page : Page) : bool :=
  match page with
  | Raise _ => true
  | Return _ => false
  end.

Definition page_blank (page : Page) : bool :=
  match page with
  | Raise _ => false
  | Return t => blank t
  end.

(** A document yields no extractable text: it does not parse, a page
    of it does not parse, or all its pages are empty or whitespace. *)
Definition no_extractable_text (parsed : result (list Page)) : bool :=
  match parsed with
  | Raise _ => true
  | Return pages => existsb page_raises pages || forallb page_blank pages
  end.

(** The extractor as the specification words it: the texts of the
    pages that yielded some, joined by line feeds, then trimmed. *)
Definition joined_and_trimmed (texts : list string) : string :=
  strip (join_lines (filter truthy texts)).

(** The world after the [except] branch of the extractor. *)
Definition extraction_failed (w : World) (e : exn) : World :=
  mkWorld (trace w) (stdout w ++ ["Error extracting text from PDF: " ++ str e]).

(** The request passes the validation steps of [analyze_resume] with
    the file [resume_file] and the description [job_description]. *)
Definition accepted (request : Request) (resume_file : FileStorage)
    (job_description : string) : Prop :=
  content_length request <= MAX_CONTENT_LENGTH /\
  lookup "resume" (files request) = Some resume_file /\
  lookup "job_description" (form request) = Some job_description /\
  filename resume_file <> "" /\
  endswith (lower (filename resume_file)) ".pdf" = true /\
  strip job_description <> "".

(** The responses of [analyze_resume]. *)
Definition error_response (message : string) (status : Z) : ViewResult :=
  Jsonify [("error", JStr message)] status.

Definition success_response (analysis_text : string) : ViewResult :=
  Jsonify [("success", JBool true); ("analysis", JStr analysis_text)] 200.

(** The status of the response a view function returns, if it
    returns a JSON response. *)
Definition response_status (r : result (option ViewResult)) : option Z :=
  match r with
  | Return (Some (Jsonify _ status)) => Some status
  | _ => None
  end.

(** The invocation of the Gemini client that [analyze_resume] makes
    with the prompt [prompt]. *)
Definition call_event (prompt : string) : event :=
  Called MODEL_NAME prompt system_instruction.

(** What an attempt that ends in an API error and is retried leaves
    in the trace: the call, then the back-off sleep. *)
Definition failed_attempt (prompt : string) (attempt : Z) : list event :=
  [call_event prompt; Slept (2 ^ attempt)].

(** The client answers the invocation number [n] for [prompt]. *)
Definition answers (client : Client) (n : nat) (prompt : string) : result string :=
  generate_content client n MODEL_NAME prompt system_instruction.

(** The [except] clause of the outer [try] of [analyze_resume]. *)
Definition outer_except (e : exn) : M (option ViewResult) :=
  (print ("An error occurred during analysis setup: " ++ str e) ;;;
   ret (Some (Jsonify [("error", JStr ("Internal Server Error: " ++ str e))] 500)))%M.

Definition not_initialized : string :=
  "Gemini API client not initialized. Check server logs for API Key error.".

Definition image_only : string :=
  "Could not extract readable text from PDF. The document might be an image-only PDF.".

Definition missing_data : string :=
  "Missing required data: resume file or job description.".

(** A JSON response of [analyze_resume] that reports success or an
    error with status 500. *)
Definition success_or_500 (v : ViewResult) : Prop :=
  (exists text, v = success_response text) \/ (exists msg, v = error_response msg 500).

(** A JSON response of [analyze_resume]: success, or an error with
    status 400 or 500. *)
Definition json_response (v : ViewResult) : Prop :=
  success_or_500 v \/ (exists msg, v = error_response msg 400).

(** What the answer of the last call makes of the response, [k] failed
    attempts before it: the text of a success, the message of an unexpected exception, or,
    on the third attempt only, the message of an API error. *)
Definition explains (k : nat) (answer : result string) (v : ViewResult) : Prop :=
  match answer with
  | Return text => v = success_response text
  | Raise (Exception m) => v = error_response ("Unexpected error: " ++ m) 500
  | Raise (APIError m) =>
      k = 2%nat /\ v = error_response ("Gemini API Error after 3 attempts: " ++ m) 500
  end.

(** The four section headers the prompt asks for. *)
Definition header1 : string := "1.  **ATS Match Score:**".
Definition header2 : string := "2.  **Missing Keywords/Skills:**".
Definition header3 : string := "3.  **Summary of Strengths:**".
Definition header4 : string := "4.  **Actionable Improvement Suggestions:**".

(* ================================================================= *)
(** ** Strings: trimming *)

Lemma append_empty_r (s : string) : s ++ "" = s.
Proof. induction s as [|c s IH]; simpl; [reflexivity | now rewrite IH]. Qed.

Lemma append_assoc' (a b c : string) : (a ++ b) ++ c = a ++ b ++ c.
Proof. induction a as [|x a IH]; simpl; [reflexivity | now rewrite IH]. Qed.

Lemma blank_app (a b : string) : blank (a ++ b) = blank a && blank b.
Proof.
  induction a as [|c a IH]; simpl; [reflexivity|].
  rewrite IH. now rewrite andb_assoc.
Qed.

Lemma lstrip_blank (s : string) : blank s = true -> lstrip s = "".
Proof.
  induction s as [|c s IH]; simpl; [reflexivity|].
  intros H. apply andb_true_iff in H as [Hc Hs]. rewrite Hc. now apply IH.
Qed.

Lemma rstrip_blank (s : string) : blank s = true -> rstrip s = "".
Proof.
  induction s as [|c s IH]; simpl; [reflexivity|].
  intros H. apply andb_true_iff in H as [Hc Hs]. rewrite (IH Hs). now rewrite Hc.
Qed.

Lemma lstrip_app (a b : string) :
  lstrip (a ++ b) = if blank a then lstrip b else lstrip a ++ b.
Proof.
  induction a as [|c a IH]; simpl; [reflexivity|].
  destruct (isspace c); simpl; [exact IH | reflexivity].
Qed.

Lemma rstrip_app_blank (a ws : string) :
  blank ws = true -> rstrip (a ++ ws) = rstrip a.
Proof.
  intros H. induction a as [|c a IH]; simpl.
  - now apply rstrip_blank.
  - now rewrite IH.
Qed.

Lemma strip_blank (s : string) : blank s = true -> strip s = "".
Proof. intros H. unfold strip. now rewrite (lstrip_blank s H). Qed.

Lemma strip_app_blank (a ws : string) :
  blank ws = true -> strip (a ++ ws) = strip a.
Proof.
  intros H. unfold strip. rewrite lstrip_app.
  destruct (blank a) eqn:Ha.
  - rewrite (lstrip_blank ws H), (lstrip_blank a Ha). reflexivity.
  - now apply rstrip_app_blank.
Qed.

Lemma lstrip_not_blank (s : string) :
  blank s = false ->
  exists c s', lstrip s = String c s' /\ isspace c = false.
Proof.
  induction s as [|c s IH]; simpl; [discriminate|].
  destruct (isspace c) eqn:Hc; simpl.
  - exact IH.
  - intros _. now exists c, s.
Qed.

Lemma rstrip_keeps_head (c : ascii) (s : string) :
  isspace c = false -> rstrip (String c s) <> "".
Proof.
  intros Hc. simpl. destruct (rstrip s); [rewrite Hc|]; discriminate.
Qed.

Lemma strip_empty_iff (s : string) : strip s = "" <-> blank s = true.
Proof.
  split; [|apply strip_blank].
  intros H. destruct (blank s) eqn:Hb; [reflexivity|].
  destruct (lstrip_not_blank s Hb) as (c & s' & Hl & Hc).
  unfold strip in H. rewrite Hl in H. now apply rstrip_keeps_head in H.
Qed.

Lemma blank_nl : blank nl = true.
Proof. reflexivity. Qed.

Lemma lines_join (texts : list string) :
  texts <> [] -> lines texts = join_lines texts ++ nl.
Proof.
  induction texts as [|t [|t' texts] IH]; [congruence | reflexivity |].
  intros _. change (lines (t :: t' :: texts)) with (t ++ nl ++ lines (t' :: texts)).
  change (join_lines (t :: t' :: texts)) with (t ++ nl ++ join_lines (t' :: texts)).
  rewrite IH by discriminate. now rewrite !append_assoc'.
Qed.

Lemma strip_lines (texts : list string) :
  strip (lines texts) = strip (join_lines texts).
Proof.
  destruct texts as [|t texts]; [reflexivity|].
  rewrite lines_join by discriminate. apply strip_app_blank, blank_nl.
Qed.

Lemma blank_lines (texts : list string) :
  forallb blank texts = true -> blank (lines texts) = true.
Proof.
  induction texts as [|t texts IH]; cbn [lines forallb]; [reflexivity|].
  intros H. apply andb_true_iff in H as [Ht Hts].
  now rewrite !blank_app, Ht, blank_nl, IH.
Qed.

Lemma forallb_filter_blank (texts : list string) :
  forallb blank texts = true -> forallb blank (filter truthy texts) = true.
Proof.
  induction texts as [|t texts IH]; simpl; [reflexivity|].
  intros H. apply andb_true_iff in H as [Ht Hts].
  destruct (truthy t); simpl; [rewrite Ht|]; now apply IH.
Qed.

(* ================================================================= *)
(** ** The text extractor *)

Section Extractor.

Variable PdfReader : list Byte.byte -> result (list Page).

(** The page loop accumulates the non-empty page texts, each with
    its line feed, and stops at the first page that raises. *)
Lemma extract_pages_eq (pages : list Page) :
  forall (text : string) (w : World),
    extract_pages pages text w =
      (match page_texts pages with
       | Return ts => Return (text ++ lines (filter truthy ts))
       | Raise e => Raise e
       end, w).
Proof.
  induction pages as [|[t|e] pages IH]; intros text w.
  - simpl. unfold ret. now rewrite append_empty_r.
  - cbn [extract_pages page_texts]. unfold bind, eval, extract_text.
    rewrite IH. destruct (page_texts pages) as [ts|e]; [|reflexivity].
    cbn [filter]. destruct (truthy t); [|reflexivity].
    cbn [lines]. now rewrite !append_assoc'.
  - reflexivity.
Qed.

Lemma extract_text_from_pdf_eq (data : list Byte.byte) (w : World) :
  extract_text_from_pdf PdfReader data w =
    match PdfReader data with
    | Raise e => (Return None, extraction_failed w e)
    | Return pages =>
        match page_texts pages with
        | Raise e => (Return None, extraction_failed w e)
        | Return ts => (Return (Some (strip (lines (filter truthy ts)))), w)
        end
    end.
Proof.
  unfold extract_text_from_pdf, try_except, bind, eval.
  destruct (PdfReader data) as [pages|e]; [|reflexivity].
  rewrite extract_pages_eq.
  destruct (page_texts pages) as [ts|e]; reflexivity.
Qed.

Lemma page_texts_raises (pages : list Page) :
  existsb page_raises pages = true -> exists e, page_texts pages = Raise e.
Proof.
  induction pages as [|[t|e] pages IH]; simpl; [discriminate | | now exists e].
  intros H. destruct (IH H) as [e He]. exists e. now rewrite He.
Qed.

Lemma page_texts_blank (pages : list Page) :
  forallb page_blank pages = true ->
  exists ts, page_texts pages = Return ts /\ forallb blank ts = true.
Proof.
  induction pages as [|[t|e] pages IH]; simpl; [now exists [] | | discriminate].
  intros H. apply andb_true_iff in H as [Ht Hps].
  destruct (IH Hps) as (ts & Hts & Hb). exists (t :: ts).
  rewrite Hts. simpl. now rewrite Ht, Hb.
Qed.

(** A document without extractable text makes the extractor return
    [None] or the empty string, and nothing is added to the trace. *)
Lemma extract_no_text (data : list Byte.byte) (w : World) :
  no_extractable_text (PdfReader data) = true ->
  exists w',
    trace w' = trace w /\
    (extract_text_from_pdf PdfReader data w = (Return None, w') \/
     extract_text_from_pdf PdfReader data w = (Return (Some ""), w')).
Proof.
  intros H. rewrite extract_text_from_pdf_eq. unfold no_extractable_text in H.
  destruct (PdfReader data) as [pages|e].
  - apply orb_true_iff in H as [H|H].
    + destruct (page_texts_raises pages H) as [e He]. rewrite He.
      exists (extraction_failed w e). now split; [|left].
    + destruct (page_texts_blank pages H) as (ts & Hts & Hb). rewrite Hts.
      exists w. split; [reflexivity | right].
      rewrite strip_blank; [reflexivity|].
      now apply blank_lines, forallb_filter_blank.
  - exists (extraction_failed w e). now split; [|left].
Qed.

(** [C6], amended. The extractor never raises and leaves the
    trace alone. On a document that does not parse, or with a page
    whose extraction raises, it returns [None]. Otherwise it returns
    the texts of the pages that yielded some, joined by line feeds and
    trimmed; when every page is empty or whitespace that is the empty
    string, not [None]. *)
Theorem extract_text_from_pdf_spec (data : list Byte.byte) (w : World) :
  fst (extract_text_from_pdf PdfReader data w) =
    match PdfReader data with
    | Raise _ => Return None
    | Return pages =>
        match page_texts pages with
        | Raise _ => Return None
        | Return texts => Return (Some (joined_and_trimmed texts))
        end
    end
  /\ trace (snd (extract_text_from_pdf PdfReader data w)) = trace w
  /\ (forall pages, PdfReader data = Return pages ->
      forallb page_blank pages = true ->
      fst (extract_text_from_pdf PdfReader data w) = Return (Some "")).
Proof.
  rewrite extract_text_from_pdf_eq. repeat split.
  - destruct (PdfReader data) as [pages|e]; [|reflexivity].
    destruct (page_texts pages) as [ts|e]; [|reflexivity].
    simpl. unfold joined_and_trimmed. now rewrite strip_lines.
  - destruct (PdfReader data) as [pages|e]; [|reflexivity].
    destruct (page_texts pages); reflexivity.
  - intros pages Hp Hb. rewrite Hp.
    destruct (page_texts_blank pages Hb) as (ts & Hts & Hbs). rewrite Hts.
    simpl. rewrite strip_blank; [reflexivity|].
    now apply blank_lines, forallb_filter_blank.
Qed.

End Extractor.

(** [C6], witness: two pages, one holding a blank and one empty. *)
Lemma extract_text_from_pdf_spec_witness :
  fst (extract_text_from_pdf (Stub.reader [Return " "; Return ""]) [] Stub.w0)
  = Return (Some "").
Proof.
  apply (extract_text_from_pdf_spec (Stub.reader [Return " "; Return ""]) [] Stub.w0)
    with (pages := [Return " "; Return ""]); reflexivity.
Defined.

(** [C6], counterexample: for a document whose only page yields no
    text the extractor returns the empty string, not [None]. *)
Lemma extract_empty_page_not_None :
  page_texts [Return ""] = Return [""] /\
  fst (extract_text_from_pdf (Stub.reader [Return ""]) [] Stub.w0) = Return (Some "") /\
  fst (extract_text_from_pdf (Stub.reader [Return ""]) [] Stub.w0) <> Return None.
Proof. split; [reflexivity | split; [reflexivity | discriminate]]. Qed.

(* ================================================================= *)
(** ** The retry loop *)

Lemma sleeps_app (t t' : list event) : sleeps (t ++ t') = (sleeps t ++ sleeps t')%list.
Proof.
  induction t as [|[m c i|s] t IH]; simpl; [reflexivity | exact IH | now rewrite IH].
Qed.

Lemma call_count_trace (w w' : World) (evs : list event) :
  trace w' = (trace w ++ evs)%list ->
  call_count w' = (call_count w + List.length (filter is_call evs))%nat.
Proof.
  intros H. unfold call_count. now rewrite H, filter_app, length_app.
Qed.

(** Runs one attempt up to the answer [H] gives for the call. *)
Ltac run_attempt H :=
  unfold attempt_body, try_except, bind, print, models_generate_content;
  cbv beta iota; unfold answers in H;
  match goal with
  | |- context [call_count (mkWorld (trace ?w) ?out)] =>
      change (call_count (mkWorld (trace w) out)) with (call_count w)
  end;
  rewrite H; cbv beta iota; simpl isinstance_APIError; cbv beta iota.

Section RetryLoop.

Variable client : Client.
Variable prompt : string.

(** A successful call: the attempt returns the 200 response. *)
Lemma attempt_success (attempt : Z) (w : World) (text : string) :
  answers client (call_count w) prompt = Return text ->
  exists w',
    attempt_body client prompt attempt w = (Return (Some (success_response text)), w')
    /\ trace w' = (trace w ++ [call_event prompt])%list.
Proof.
  intros H. run_attempt H. eexists. split; reflexivity.
Qed.

(** An API error before the last attempt: sleep, then go on. *)
Lemma attempt_api_error_retry (attempt : Z) (w : World) (msg : string) :
  answers client (call_count w) prompt = Raise (APIError msg) ->
  attempt < MAX_RETRIES - 1 ->
  exists w',
    attempt_body client prompt attempt w = (Return None, w')
    /\ trace w' = (trace w ++ failed_attempt prompt attempt)%list.
Proof.
  intros H Ha. run_attempt H. apply Z.ltb_lt in Ha. rewrite Ha.
  eexists. split; [reflexivity|]. cbn. now rewrite <- app_assoc.
Qed.

(** An API error on the last attempt: the 500 response that counts
    the attempts. *)
Lemma attempt_api_error_final (attempt : Z) (w : World) (msg : string) :
  answers client (call_count w) prompt = Raise (APIError msg) ->
  MAX_RETRIES - 1 <= attempt ->
  exists w',
    attempt_body client prompt attempt w =
      (Return (Some (error_response ("Gemini API Error after 3 attempts: " ++ msg) 500)), w')
    /\ trace w' = (trace w ++ [call_event prompt])%list.
Proof.
  intros H Ha. run_attempt H. apply Z.ltb_ge in Ha. rewrite Ha.
  eexists. split; reflexivity.
Qed.

(** Any other exception: the 500 response, whatever the attempt. *)
Lemma attempt_unexpected (attempt : Z) (w : World) (msg : string) :
  answers client (call_count w) prompt = Raise (Exception msg) ->
  exists w',
    attempt_body client prompt attempt w =
      (Return (Some (error_response ("Unexpected error: " ++ msg) 500)), w')
    /\ trace w' = (trace w ++ [call_event prompt])%list.
Proof.
  intros H. run_attempt H. eexists. split; reflexivity.
Qed.

(** The loop skips over a run of attempts that end in API errors,
    leaving a call and a sleep in the trace for each. *)
Lemma retry_loop_api_errors (failed rest : list Z) :
  forall w : World,
    (forall i, (i < List.length failed)%nat ->
               exists msg, answers client (call_count w + i) prompt = Raise (APIError msg)) ->
    Forall (fun attempt => attempt < MAX_RETRIES - 1) failed ->
    exists w',
      retry_loop client prompt (failed ++ rest) w = retry_loop client prompt rest w'
      /\ trace w' = (trace w ++ flat_map (failed_attempt prompt) failed)%list.
Proof.
  induction failed as [|a failed IH]; intros w Hans Hlt.
  - exists w. split; [reflexivity | now rewrite app_nil_r].
  - inversion Hlt as [|? ? Ha Hfailed]; subst.
    destruct (Hans 0%nat) as [msg Hmsg]; [simpl; lia|].
    rewrite Nat.add_0_r in Hmsg.
    destruct (attempt_api_error_retry a w msg Hmsg Ha) as (w1 & Hrun & Htr).
    destruct (IH w1) as (w' & Hloop & Htr'); [|exact Hfailed|].
    + intros i Hi. destruct (Hans (S i)) as [m Hm]; [simpl; lia|].
      exists m. rewrite (call_count_trace w w1 _ Htr). simpl.
      now rewrite <- Nat.add_assoc.
    + exists w'. split.
      * cbn [app retry_loop]. unfold bind at 1. rewrite Hrun. exact Hloop.
      * rewrite Htr', Htr. cbn [flat_map]. now rewrite <- app_assoc.
Qed.

(** Whatever the client does, an attempt raises nothing: it returns
    the 200 response, a 500 response, or (only before the last
    attempt) leaves the loop running. *)
Lemma attempt_body_cases (attempt : Z) (w : World) :
  exists w',
    (exists v, attempt_body client prompt attempt w = (Return (Some v), w')
               /\ ((exists text, v = success_response text)
                   \/ (exists msg, v = error_response msg 500)))
    \/ (attempt_body client prompt attempt w = (Return None, w')
        /\ attempt < MAX_RETRIES - 1).
Proof.
  destruct (answers client (call_count w) prompt) as [text|[msg|msg]] eqn:H.
  - destruct (attempt_success attempt w text H) as (w' & Hrun & _).
    exists w'. left. eexists. split; [exact Hrun|]. left. now exists text.
  - destruct (Z.lt_ge_cases attempt (MAX_RETRIES - 1)) as [Ha|Ha].
    + destruct (attempt_api_error_retry attempt w msg H Ha) as (w' & Hrun & _).
      exists w'. right. now split.
    + destruct (attempt_api_error_final attempt w msg H Ha) as (w' & Hrun & _).
      exists w'. left. eexists. split; [exact Hrun|]. right. now eexists.
  - destruct (attempt_unexpected attempt w msg H) as (w' & Hrun & _).
    exists w'. left. eexists. split; [exact Hrun|]. right. now eexists.
Qed.

(** A loop that reaches a last attempt returns a response. *)
Lemma retry_loop_returns (attempts : list Z) :
  forall w : World,
    Exists (fun attempt => MAX_RETRIES - 1 <= attempt) attempts ->
    exists v w',
      retry_loop client prompt attempts w = (Return (Some v), w')
      /\ ((exists text, v = success_response text)
          \/ (exists msg, v = error_response msg 500)).
Proof.
  induction attempts as [|a attempts IH]; intros w Hex.
  - inversion Hex.
  - cbn [retry_loop]. unfold bind.
    destruct (attempt_body_cases a w) as (w1 & [(v & Hrun & Hv) | (Hrun & Ha)]);
      rewrite Hrun.
    + now exists v, w1.
    + apply IH. inversion Hex as [? ? Hge | ? ? Htl]; subst; [lia | exact Htl].
Qed.

Lemma failed_attempts_calls (failed : list Z) :
  List.length (filter is_call (flat_map (failed_attempt prompt) failed))
  = List.length failed.
Proof. induction failed as [|a failed IH]; simpl; [reflexivity | now rewrite IH]. Qed.

(** After a run of attempts that end in API errors, an attempt that
    returns [v] ends the loop: the attempts listed after it are not
    made. *)
Lemma retry_loop_ends (failed : list Z) (attempt : Z) (rest : list Z)
    (w : World) (v : ViewResult) :
  (forall i, (i < List.length failed)%nat ->
             exists msg, answers client (call_count w + i) prompt = Raise (APIError msg)) ->
  Forall (fun a => a < MAX_RETRIES - 1) failed ->
  (forall w1, call_count w1 = (call_count w + List.length failed)%nat ->
              exists w',
                attempt_body client prompt attempt w1 = (Return (Some v), w')
                /\ trace w' = (trace w1 ++ [call_event prompt])%list) ->
  exists w',
    retry_loop client prompt (failed ++ attempt :: rest) w = (Return (Some v), w')
    /\ trace w' =
         (trace w ++ flat_map (failed_attempt prompt) failed ++ [call_event prompt])%list.
Proof.
  intros Hans Hlt Hlast.
  destruct (retry_loop_api_errors failed (attempt :: rest) w Hans Hlt)
    as (w1 & Hloop & Htr1).
  destruct (Hlast w1) as (w' & Hrun & Htr').
  - rewrite (call_count_trace w w1 _ Htr1). now rewrite failed_attempts_calls.
  - exists w'. split.
    + rewrite Hloop. cbn [retry_loop]. unfold bind. now rewrite Hrun.
    + rewrite Htr', Htr1. now rewrite <- app_assoc.
Qed.

End RetryLoop.

(* ================================================================= *)
(** ** The request handler *)

(** The initialisation ends with [client = None] when the key is
    empty or the constructor raises. *)
Lemma init_client_without_credential (GEMINI_API_KEY : string)
    (genai_Client : string -> result Client) (w : World) :
  GEMINI_API_KEY = "" \/ (exists e, genai_Client GEMINI_API_KEY = Raise e) ->
  fst (init_client GEMINI_API_KEY genai_Client w) = Return None
  /\ trace (snd (init_client GEMINI_API_KEY genai_Client w)) = trace w.
Proof.
  intros [-> | [e He]]; unfold init_client.
  - split; reflexivity.
  - destruct (truthy GEMINI_API_KEY); [|split; reflexivity].
    unfold try_except, bind, eval. rewrite He. split; reflexivity.
Qed.

(** Runs the handler of a request with a client up to the look-up of
    the fields, given that the body is within the limit ([Hlen]). *)
Ltac load_form Hlen :=
  unfold analyze_resume, request_files, request_form, load_form_data, bind, eval, ret;
  apply Z.ltb_ge in Hlen; rewrite Hlen; cbv beta iota.

Section Handler.

Variable PdfReader : list Byte.byte -> result (list Page).

(** Step 1 comes first: without a client nothing of the request is
    looked at. *)
Lemma analyze_resume_no_client (request : Request) (w : World) :
  analyze_resume PdfReader None request w =
    (Return (Some (error_response not_initialized 500)), w).
Proof. reflexivity. Qed.

(** A request that passes the validation enters the outer [try]. *)
Lemma analyze_resume_accepted (client : Client) (request : Request)
    (resume_file : FileStorage) (job_description : string) (w : World) :
  accepted request resume_file job_description ->
  analyze_resume PdfReader (Some client) request w =
    try_except (analysis PdfReader client resume_file job_description) outer_except w.
Proof.
  intros (Hlen & Hfile & Hjd & Hname & Hpdf & Hstrip).
  load_form Hlen. rewrite Hfile, Hjd.
  apply String.eqb_neq in Hname. rewrite Hname, Hpdf. cbv beta iota. simpl negb.
  cbv beta iota.
  destruct (strip job_description); [congruence|]. reflexivity.
Qed.

(** A missing field is answered before anything else is done. *)
Lemma analyze_resume_missing (client : Client) (request : Request) (w : World) :
  content_length request <= MAX_CONTENT_LENGTH ->
  lookup "resume" (files request) = None
  \/ lookup "job_description" (form request) = None ->
  analyze_resume PdfReader (Some client) request w =
    (Return (Some (error_response missing_data 400)), w).
Proof.
  intros Hlen Hmiss. load_form Hlen.
  destruct (lookup "resume" (files request)) as [f|]; [|reflexivity].
  destruct Hmiss as [H|H]; [discriminate|]. now rewrite H.
Qed.

(** When the extractor succeeds it has printed nothing. *)
Lemma extract_some_world (data : list Byte.byte) (w : World) (text : string) :
  fst (extract_text_from_pdf PdfReader data w) = Return (Some text) ->
  extract_text_from_pdf PdfReader data w = (Return (Some text), w).
Proof.
  rewrite extract_text_from_pdf_eq.
  destruct (PdfReader data) as [pages|e]; [|discriminate].
  destruct (page_texts pages) as [ts|e]; [|discriminate].
  simpl. now intros [= ->].
Qed.

(** With a text extracted, the body of the outer [try] is the retry
    loop over the three attempts. *)
Lemma analysis_with_text (client : Client) (resume_file : FileStorage)
    (job_description : string) (data : list Byte.byte) (text : string) (w : World) :
  read resume_file = Return data ->
  fst (extract_text_from_pdf PdfReader data w) = Return (Some text) ->
  text <> "" ->
  analysis PdfReader client resume_file job_description w =
    retry_loop client (user_prompt job_description text) [0; 1; 2] w.
Proof.
  intros Hread Htext Hne. unfold analysis, bind, eval. rewrite Hread.
  rewrite (extract_some_world data w text Htext).
  destruct text; [congruence | reflexivity].
Qed.

(** With no text extracted, it is the image-only response. *)
Lemma analysis_no_text (client : Client) (resume_file : FileStorage)
    (job_description : string) (data : list Byte.byte) (w : World) :
  read resume_file = Return data ->
  no_extractable_text (PdfReader data) = true ->
  exists w',
    analysis PdfReader client resume_file job_description w =
      (Return (Some (error_response image_only 500)), w')
    /\ trace w' = trace w.
Proof.
  intros Hread Hno. unfold analysis, bind, eval. rewrite Hread.
  destruct (extract_no_text PdfReader data w Hno) as (w' & Htr & [H|H]);
    rewrite H; now exists w'.
Qed.

(** The outer [try] hands on what its body returns. *)
Lemma try_except_return {A : Type} (m : M A) (handler : exn -> M A)
    (w w' : World) (a : A) :
  m w = (Return a, w') -> try_except m handler w = (Return a, w').
Proof. intros H. unfold try_except. now rewrite H. Qed.

(** [C1]. A request that passes the validation and whose document
    yields no extractable text (it does not parse, or its pages are
    empty or whitespace) gets the 500 response about image-only PDFs,
    and the Gemini client is not invoked. *)
Theorem no_text_is_extraction_failure (client : Client) (request : Request)
    (resume_file : FileStorage) (job_description : string)
    (data : list Byte.byte) (w : World) :
  accepted request resume_file job_description ->
  read resume_file = Return data ->
  no_extractable_text (PdfReader data) = true ->
  fst (analyze_resume PdfReader (Some client) request w) =
    Return (Some (error_response image_only 500))
  /\ trace (snd (analyze_resume PdfReader (Some client) request w)) = trace w
  /\ call_count (snd (analyze_resume PdfReader (Some client) request w)) = call_count w.
Proof.
  intros Hacc Hread Hno.
  rewrite (analyze_resume_accepted client request resume_file job_description w Hacc).
  destruct (analysis_no_text client resume_file job_description data w Hread Hno)
    as (w' & Hrun & Htr).
  rewrite (try_except_return _ _ w w' _ Hrun). simpl.
  repeat split; [exact Htr | unfold call_count; now rewrite Htr].
Qed.

(** The form data loads only when the body is within the limit. *)
Lemma load_form_data_within_limit (request : Request) :
  load_form_data request = Return tt ->
  content_length request <= MAX_CONTENT_LENGTH.
Proof.
  unfold load_form_data.
  destruct (MAX_CONTENT_LENGTH <? content_length request) eqn:Hlen; [discriminate|].
  intros _. now apply Z.ltb_ge.
Qed.

(** [C7], amended. With the client initialised, a request whose form
    data loads and that lacks the [resume] file or the
    [job_description] field gets the 400 response, and nothing else
    happens: the Gemini client is not invoked. *)
Theorem missing_field_is_400 (client : Client) (request : Request) (w : World) :
  load_form_data request = Return tt ->
  lookup "resume" (files request) = None
  \/ lookup "job_description" (form request) = None ->
  fst (analyze_resume PdfReader (Some client) request w) =
    Return (Some (error_response missing_data 400))
  /\ snd (analyze_resume PdfReader (Some client) request w) = w.
Proof.
  intros Hload Hmiss.
  now rewrite (analyze_resume_missing client request w
                 (load_form_data_within_limit request Hload) Hmiss).
Qed.

(** [C10]. Without a client every request gets the 500 response
    "not initialized", whatever it contains, and never a 400; the
    request is not looked at and the world is left as it was. *)
Theorem readiness_check_comes_first (request : Request) (w : World) :
  analyze_resume PdfReader None request w =
    (Return (Some (error_response not_initialized 500)), w)
  /\ response_status (fst (analyze_resume PdfReader None request w)) <> Some 400.
Proof. split; [reflexivity | discriminate]. Qed.

(** [C8], amended. When the credential is absent or the
    construction of the client raises, the initialisation raises
    nothing and leaves [client] at [None]; every request to /analyze
    then gets the 500 response "not initialized" without a call of
    the Gemini client, and / still renders the page. *)
Theorem no_client_degrades_to_500 (GEMINI_API_KEY : string)
    (genai_Client : string -> result Client) (w : World) :
  GEMINI_API_KEY = "" \/ (exists e, genai_Client GEMINI_API_KEY = Raise e) ->
  fst (init_client GEMINI_API_KEY genai_Client w) = Return None
  /\ trace (snd (init_client GEMINI_API_KEY genai_Client w)) = trace w
  /\ (forall request w1,
        analyze_resume PdfReader None request w1 =
          (Return (Some (error_response not_initialized 500)), w1))
  /\ (forall w1,
        index w1 =
          (Return (Some (RenderTemplate "index.html" [("title", "AI Resume Analyzer")])), w1)).
Proof.
  intros Hcred.
  destruct (init_client_without_credential GEMINI_API_KEY genai_Client w Hcred)
    as [Hnone Htrace].
  repeat split; [exact Hnone | exact Htrace].
Qed.

(** A request that passes the validation and yields a text runs the
    retry loop inside the outer [try]; what the loop returns is what
    the handler returns. *)
Lemma analyze_resume_retry (client : Client) (request : Request)
    (resume_file : FileStorage) (job_description : string)
    (data : list Byte.byte) (text : string) (w w' : World) (v : ViewResult) :
  accepted request resume_file job_description ->
  read resume_file = Return data ->
  fst (extract_text_from_pdf PdfReader data w) = Return (Some text) ->
  text <> "" ->
  retry_loop client (user_prompt job_description text) [0; 1; 2] w = (Return (Some v), w') ->
  analyze_resume PdfReader (Some client) request w = (Return (Some v), w').
Proof.
  intros Hacc Hread Htext Hne Hloop.
  rewrite (analyze_resume_accepted client request resume_file job_description w Hacc).
  apply try_except_return.
  now rewrite (analysis_with_text client resume_file job_description data text w
                 Hread Htext Hne).
Qed.

(** [C2]. When the first two calls of the Gemini client end in an
    API error and the third succeeds, the handler returns the 200
    response with the generated text; the client has been invoked
    exactly three times, with a sleep of 1 second between the first
    and the second call and of 2 seconds between the second and the
    third. *)
Theorem two_api_errors_then_success (client : Client) (request : Request)
    (resume_file : FileStorage) (job_description : string)
    (data : list Byte.byte) (text : string) (w : World)
    (msg1 msg2 generated : string) :
  accepted request resume_file job_description ->
  read resume_file = Return data ->
  fst (extract_text_from_pdf PdfReader data w) = Return (Some text) ->
  text <> "" ->
  answers client (call_count w) (user_prompt job_description text)
    = Raise (APIError msg1) ->
  answers client (call_count w + 1) (user_prompt job_description text)
    = Raise (APIError msg2) ->
  answers client (call_count w + 2) (user_prompt job_description text)
    = Return generated ->
  fst (analyze_resume PdfReader (Some client) request w)
    = Return (Some (success_response generated))
  /\ trace (snd (analyze_resume PdfReader (Some client) request w))
     = (trace w ++ [call_event (user_prompt job_description text); Slept 1;
                    call_event (user_prompt job_description text); Slept 2;
                    call_event (user_prompt job_description text)])%list
  /\ call_count (snd (analyze_resume PdfReader (Some client) request w))
     = (call_count w + 3)%nat
  /\ sleeps (trace (snd (analyze_resume PdfReader (Some client) request w)))
     = (sleeps (trace w) ++ map (fun attempt => 2 ^ attempt) [0; 1])%list.
Proof.
  intros Hacc Hread Htext Hne H1 H2 H3.
  destruct (retry_loop_ends client (user_prompt job_description text)
              [0; 1] 2 [] w (success_response generated)) as (w' & Hloop & Htr).
  - intros [|[|i]] Hi; [exists msg1; now rewrite Nat.add_0_r | now exists msg2 |].
    simpl in Hi. lia.
  - repeat constructor.
  - intros w1 Hw1. apply attempt_success. now rewrite Hw1.
  - rewrite (analyze_resume_retry client request resume_file job_description
               data text w w' _ Hacc Hread Htext Hne Hloop).
    cbn [fst snd]. repeat split; [exact Htr | | now rewrite Htr, sleeps_app].
    now rewrite (call_count_trace w w' _ Htr).
Qed.

(** [C3]. When all three calls of the Gemini client end in an API
    error, the handler makes no fourth call and returns the 500
    response whose message names the 3 attempts and carries the
    detail of the last error. *)
Theorem three_api_errors_is_500 (client : Client) (request : Request)
    (resume_file : FileStorage) (job_description : string)
    (data : list Byte.byte) (text : string) (w : World)
    (msg1 msg2 msg3 : string) :
  accepted request resume_file job_description ->
  read resume_file = Return data ->
  fst (extract_text_from_pdf PdfReader data w) = Return (Some text) ->
  text <> "" ->
  answers client (call_count w) (user_prompt job_description text)
    = Raise (APIError msg1) ->
  answers client (call_count w + 1) (user_prompt job_description text)
    = Raise (APIError msg2) ->
  answers client (call_count w + 2) (user_prompt job_description text)
    = Raise (APIError msg3) ->
  fst (analyze_resume PdfReader (Some client) request w)
    = Return (Some (error_response
                      ("Gemini API Error after 3 attempts: " ++ str (APIError msg3)) 500))
  /\ trace (snd (analyze_resume PdfReader (Some client) request w))
     = (trace w ++ [call_event (user_prompt job_description text); Slept 1;
                    call_event (user_prompt job_description text); Slept 2;
                    call_event (user_prompt job_description text)])%list
  /\ call_count (snd (analyze_resume PdfReader (Some client) request w))
     = (call_count w + 3)%nat
  /\ sleeps (trace (snd (analyze_resume PdfReader (Some client) request w)))
     = (sleeps (trace w) ++ [1; 2])%list.
Proof.
  intros Hacc Hread Htext Hne H1 H2 H3.
  destruct (retry_loop_ends client (user_prompt job_description text)
              [0; 1] 2 [] w
              (error_response ("Gemini API Error after 3 attempts: " ++ msg3) 500))
    as (w' & Hloop & Htr).
  - intros [|[|i]] Hi; [exists msg1; now rewrite Nat.add_0_r | now exists msg2 |].
    simpl in Hi. lia.
  - repeat constructor.
  - intros w1 Hw1. apply attempt_api_error_final; [now rewrite Hw1|].
    unfold MAX_RETRIES. lia.
  - rewrite (analyze_resume_retry client request resume_file job_description
               data text w w' _ Hacc Hread Htext Hne Hloop).
    cbn [fst snd str]. repeat split; [exact Htr | | now rewrite Htr, sleeps_app].
    now rewrite (call_count_trace w w' _ Htr).
Qed.

(** [C4], amended. When a call of the Gemini client raises an
    exception that is not an API error, on whichever attempt [k]
    (counted from 0, after [k] API errors), the handler returns the
    500 response "Unexpected error" at once: that call is the last
    one, so the client has been invoked [k + 1] times, which is once
    when the exception comes on the first attempt. *)
Theorem unexpected_error_is_not_retried (client : Client) (request : Request)
    (resume_file : FileStorage) (job_description : string)
    (data : list Byte.byte) (text : string) (w : World)
    (k : nat) (msg : string) :
  accepted request resume_file job_description ->
  read resume_file = Return data ->
  fst (extract_text_from_pdf PdfReader data w) = Return (Some text) ->
  text <> "" ->
  (k < 3)%nat ->
  (forall i, (i < k)%nat ->
     exists m, answers client (call_count w + i) (user_prompt job_description text)
               = Raise (APIError m)) ->
  answers client (call_count w + k) (user_prompt job_description text)
    = Raise (Exception msg) ->
  fst (analyze_resume PdfReader (Some client) request w)
    = Return (Some (error_response ("Unexpected error: " ++ msg) 500))
  /\ trace (snd (analyze_resume PdfReader (Some client) request w))
     = (trace w
        ++ flat_map (failed_attempt (user_prompt job_description text))
             (range (Z.of_nat k))
        ++ [call_event (user_prompt job_description text)])%list
  /\ call_count (snd (analyze_resume PdfReader (Some client) request w))
     = (call_count w + k + 1)%nat
  /\ (k = 0%nat ->
      call_count (snd (analyze_resume PdfReader (Some client) request w))
      = (call_count w + 1)%nat).
Proof.
  intros Hacc Hread Htext Hne Hk Herr Hexn.
  assert (Hsplit : exists rest,
             [0; 1; 2] = (range (Z.of_nat k) ++ Z.of_nat k :: rest)%list
             /\ List.length (range (Z.of_nat k)) = k
             /\ Forall (fun a => a < MAX_RETRIES - 1) (range (Z.of_nat k))).
  { destruct k as [|[|[|k]]]; [exists [1; 2] | exists [2] | exists [] | lia];
      (split; [reflexivity | split; [reflexivity | repeat constructor]]). }
  destruct Hsplit as (rest & Hrange & Hlen & Hlt).
  destruct (retry_loop_ends client (user_prompt job_description text)
              (range (Z.of_nat k)) (Z.of_nat k) rest w
              (error_response ("Unexpected error: " ++ msg) 500))
    as (w' & Hloop & Htr).
  - rewrite Hlen. exact Herr.
  - exact Hlt.
  - intros w1 Hw1. apply attempt_unexpected. now rewrite Hw1, Hlen.
  - rewrite <- Hrange in Hloop.
    rewrite (analyze_resume_retry client request resume_file job_description
               data text w w' _ Hacc Hread Htext Hne Hloop).
    cbn [fst snd].
    assert (Hcount : call_count w' = (call_count w + k + 1)%nat).
    { rewrite (call_count_trace w w' _ Htr), filter_app, length_app.
      rewrite failed_attempts_calls, Hlen. simpl. lia. }
    repeat split; [exact Htr | exact Hcount |].
    intros ->. rewrite Hcount. lia.
Qed.

(** Inside the outer [try] nothing gets out: the handler returns the
    200 response or a 500 response. *)
Lemma accepted_returns (client : Client) (request : Request)
    (resume_file : FileStorage) (job_description : string) (w : World) :
  accepted request resume_file job_description ->
  exists v,
    fst (analyze_resume PdfReader (Some client) request w) = Return (Some v)
    /\ success_or_500 v.
Proof.
  intros Hacc.
  rewrite (analyze_resume_accepted client request resume_file job_description w Hacc).
  unfold try_except, analysis, bind, eval.
  destruct (read resume_file) as [data|e].
  - rewrite extract_text_from_pdf_eq.
    destruct (PdfReader data) as [pages|e];
      [destruct (page_texts pages) as [ts|e]|].
    + destruct (strip (lines (filter truthy ts))) as [|c text] eqn:Htext.
      * eexists. split; [reflexivity|]. right. now eexists.
      * destruct (retry_loop_returns client
                    (user_prompt job_description (String c text)) (range MAX_RETRIES) w)
          as (v & w' & Hloop & Hv).
        { apply Exists_cons_tl, Exists_cons_tl, Exists_cons_hd.
          unfold MAX_RETRIES. lia. }
        rewrite Hloop. now exists v.
    + eexists. split; [reflexivity|]. right. now eexists.
    + eexists. split; [reflexivity|]. right. now eexists.
  - eexists. split; [reflexivity|]. right. now eexists.
Qed.

(** [C9], amended. The outer [try] spans the reading of the
    upload, the extraction, the prompt and the calls of the client:
    an exception raised there is turned into a 500 JSON response (the
    "Internal Server Error" one when [read] raises), so a request that
    passes the validation gets the 200 response or a 500 response, and
    every request whose form data loads gets a JSON response; the
    handler then raises nothing. *)
Theorem exceptions_after_validation_become_500 (client : option Client)
    (request : Request) (w : World) :
  content_length request <= MAX_CONTENT_LENGTH ->
  (exists v,
      fst (analyze_resume PdfReader client request w) = Return (Some v)
      /\ json_response v)
  /\ (forall c resume_file job_description,
        client = Some c ->
        accepted request resume_file job_description ->
        (exists v,
            fst (analyze_resume PdfReader client request w) = Return (Some v)
            /\ success_or_500 v)
        /\ (forall e,
              read resume_file = Raise e ->
              fst (analyze_resume PdfReader client request w)
              = Return (Some (error_response ("Internal Server Error: " ++ str e) 500)))).
Proof.
  intros Hlen. split.
  - destruct client as [c|].
    2:{ eexists. split; [reflexivity|]. left. right. now eexists. }
    destruct (lookup "resume" (files request)) as [f|] eqn:Hf.
    2:{ rewrite (analyze_resume_missing c request w Hlen (or_introl Hf)).
        eexists. split; [reflexivity|]. right. now eexists. }
    destruct (lookup "job_description" (form request)) as [jd|] eqn:Hjd.
    2:{ rewrite (analyze_resume_missing c request w Hlen (or_intror Hjd)).
        eexists. split; [reflexivity|]. right. now eexists. }
    destruct (String.eqb (filename f) "") eqn:Hname.
    { load_form Hlen. rewrite Hf, Hjd, Hname.
      eexists. split; [reflexivity|]. right. now eexists. }
    destruct (endswith (lower (filename f)) ".pdf") eqn:Hpdf.
    2:{ load_form Hlen. rewrite Hf, Hjd, Hname, Hpdf.
        eexists. split; [reflexivity|]. right. now eexists. }
    destruct (strip jd) as [|ch s] eqn:Hstrip.
    { load_form Hlen. rewrite Hf, Hjd, Hname, Hpdf, Hstrip.
      eexists. split; [reflexivity|]. right. now eexists. }
    destruct (accepted_returns c request f jd w) as (v & Hv & Hgood).
    { repeat split; try assumption.
      - now apply String.eqb_neq.
      - now rewrite Hstrip. }
    exists v. split; [exact Hv | now left].
  - intros c resume_file job_description -> Hacc. split.
    + now apply accepted_returns with (resume_file := resume_file)
                                      (job_description := job_description).
    + intros e He.
      rewrite (analyze_resume_accepted c request resume_file job_description w Hacc).
      unfold try_except, analysis, bind, eval. now rewrite He.
Qed.

End Handler.

(* ================================================================= *)
(** ** The prompt *)

(** [C5]. The user message is the fixed template around the job
    description and the resume text: both are in it as they are, the
    job description first, and after them come the four numbered
    section headers in their order. The parts of the template do not
    depend on the two texts, so equal inputs give equal messages. *)
Theorem user_prompt_embeds_texts_and_headers :
  exists s0 s1 s2 s3 s4 s5 s6 : string,
    forall job_description resume_text : string,
      user_prompt job_description resume_text =
        s0 ++ job_description ++ s1 ++ resume_text ++ s2
        ++ header1 ++ s3 ++ header2 ++ s4 ++ header3 ++ s5 ++ header4 ++ s6.
Proof.
  exists (nl ++ "        Analyze the candidate's resume based on the following job description."
          ++ nl ++ nl ++ "        ## Job Description:" ++ nl ++ "        ---" ++ nl
          ++ "        ").
  exists (nl ++ "        ---" ++ nl ++ nl ++ "        ## Candidate Resume Text (Extracted):"
          ++ nl ++ "        ---" ++ nl ++ "        ").
  exists (nl ++ "        ---" ++ nl ++ nl
          ++ "        Your analysis must strictly follow this structure:" ++ nl ++ nl
          ++ "        ").
  exists (" A percentage score out of 100 (e.g., 78/100) indicating the match level. Use bold text for the score."
          ++ nl ++ "        ").
  exists (" A bulleted list of up to 5 essential skills/keywords mentioned in the Job Description but *missing* from the Resume. If none are missing, state that clearly."
          ++ nl ++ "        ").
  exists (" A concise, single paragraph highlighting the candidate's best relevant qualifications for the role."
          ++ nl ++ "        ").
  exists (" A bulleted list of 3-5 concrete, specific suggestions on how to modify the resume text to increase the match score."
          ++ nl ++ "        ").
  intros job_description resume_text. reflexivity.
Qed.

(* ================================================================= *)
(** ** Instances and counterexamples *)

(** The scenario of the specification: a one-page resume, a job
    description, and a client that answers at once. *)
Example one_page_resume_is_analysed :
  fst (analyze_resume (Stub.reader Stub.one_page) (Some (Stub.scripted [Return "**85/100**"]))
         Stub.good_request Stub.w0)
  = Return (Some (success_response "**85/100**"))
  /\ trace (snd (analyze_resume (Stub.reader Stub.one_page)
                   (Some (Stub.scripted [Return "**85/100**"])) Stub.good_request Stub.w0))
     = [call_event (user_prompt Stub.job "Senior Backend Engineer, 5 years Go experience")].
Proof. split; reflexivity. Qed.

(** Checks that a sample request passes the validation. *)
Ltac validate :=
  repeat split; solve [reflexivity | discriminate | vm_compute; discriminate].

(** [C1], witness: a scanned document. *)
Lemma no_text_is_extraction_failure_witness :
  fst (analyze_resume (Stub.reader Stub.blank_pages) (Some (Stub.scripted []))
         Stub.good_request Stub.w0)
  = Return (Some (error_response image_only 500))
  /\ trace (snd (analyze_resume (Stub.reader Stub.blank_pages) (Some (Stub.scripted []))
                  Stub.good_request Stub.w0)) = trace Stub.w0
  /\ call_count (snd (analyze_resume (Stub.reader Stub.blank_pages) (Some (Stub.scripted []))
                       Stub.good_request Stub.w0)) = call_count Stub.w0.
Proof.
  apply (no_text_is_extraction_failure (Stub.reader Stub.blank_pages) (Stub.scripted [])
           Stub.good_request Stub.resume_pdf Stub.job [] Stub.w0);
    [validate | reflexivity | reflexivity].
Defined.

(** [C2], witness: two rate-limit errors, then the analysis. *)
Lemma two_api_errors_then_success_witness :
  fst (analyze_resume (Stub.reader Stub.one_page) (Some Stub.fails_twice)
         Stub.good_request Stub.w0)
  = Return (Some (success_response "**85/100**"))
  /\ call_count (snd (analyze_resume (Stub.reader Stub.one_page) (Some Stub.fails_twice)
                       Stub.good_request Stub.w0)) = 3%nat.
Proof.
  destruct (two_api_errors_then_success (Stub.reader Stub.one_page) Stub.fails_twice
              Stub.good_request Stub.resume_pdf Stub.job []
              "Senior Backend Engineer, 5 years Go experience" Stub.w0
              "429 RESOURCE_EXHAUSTED" "503 UNAVAILABLE" "**85/100**")
    as (Hresp & _ & Hcount & _);
    [validate | reflexivity | reflexivity | discriminate
     | reflexivity | reflexivity | reflexivity |].
  split; [exact Hresp | exact Hcount].
Defined.

(** [C3], witness: three API errors. *)
Lemma three_api_errors_is_500_witness :
  fst (analyze_resume (Stub.reader Stub.one_page) (Some Stub.fails_always)
         Stub.good_request Stub.w0)
  = Return (Some (error_response
                    "Gemini API Error after 3 attempts: 401 UNAUTHENTICATED" 500))
  /\ call_count (snd (analyze_resume (Stub.reader Stub.one_page) (Some Stub.fails_always)
                       Stub.good_request Stub.w0)) = 3%nat.
Proof.
  destruct (three_api_errors_is_500 (Stub.reader Stub.one_page) Stub.fails_always
              Stub.good_request Stub.resume_pdf Stub.job []
              "Senior Backend Engineer, 5 years Go experience" Stub.w0
              "429 RESOURCE_EXHAUSTED" "503 UNAVAILABLE" "401 UNAUTHENTICATED")
    as (Hresp & _ & Hcount & _);
    [validate | reflexivity | reflexivity | discriminate
     | reflexivity | reflexivity | reflexivity |].
  split; [exact Hresp | exact Hcount].
Defined.

(** [C4], witness: an unexpected exception on the second attempt. *)
Lemma unexpected_error_is_not_retried_witness :
  fst (analyze_resume (Stub.reader Stub.one_page) (Some Stub.breaks_on_second)
         Stub.good_request Stub.w0)
  = Return (Some (error_response "Unexpected error: Connection reset by peer" 500))
  /\ call_count (snd (analyze_resume (Stub.reader Stub.one_page) (Some Stub.breaks_on_second)
                       Stub.good_request Stub.w0)) = 2%nat.
Proof.
  destruct (unexpected_error_is_not_retried (Stub.reader Stub.one_page)
              Stub.breaks_on_second Stub.good_request Stub.resume_pdf Stub.job []
              "Senior Backend Engineer, 5 years Go experience" Stub.w0
              1%nat "Connection reset by peer")
    as (Hresp & _ & Hcount & _);
    [validate | reflexivity | reflexivity | discriminate | lia | | reflexivity |].
  - intros [|i] Hi; [now exists "429 RESOURCE_EXHAUSTED" | lia].
  - split; [exact Hresp | exact Hcount].
Defined.

(** [C4], counterexample: the exception comes on the second attempt,
    after an API error, and the client has then been invoked twice,
    not once. *)
Lemma unexpected_on_second_attempt_two_calls :
  answers Stub.breaks_on_second 1
    (user_prompt Stub.job "Senior Backend Engineer, 5 years Go experience")
  = Raise (Exception "Connection reset by peer")
  /\ fst (analyze_resume (Stub.reader Stub.one_page) (Some Stub.breaks_on_second)
            Stub.good_request Stub.w0)
     = Return (Some (error_response "Unexpected error: Connection reset by peer" 500))
  /\ call_count (snd (analyze_resume (Stub.reader Stub.one_page) (Some Stub.breaks_on_second)
                        Stub.good_request Stub.w0)) = 2%nat
  /\ call_count (snd (analyze_resume (Stub.reader Stub.one_page) (Some Stub.breaks_on_second)
                        Stub.good_request Stub.w0)) <> 1%nat.
Proof. split; [reflexivity | split; [reflexivity | split; [reflexivity | discriminate]]]. Qed.

(** [C7], witness: a request without the [job_description] field. *)
Lemma missing_field_is_400_witness :
  fst (analyze_resume (Stub.reader Stub.one_page) (Some Stub.fails_twice)
         Stub.no_description_request Stub.w0)
  = Return (Some (error_response missing_data 400))
  /\ snd (analyze_resume (Stub.reader Stub.one_page) (Some Stub.fails_twice)
            Stub.no_description_request Stub.w0) = Stub.w0.
Proof.
  apply (missing_field_is_400 (Stub.reader Stub.one_page) Stub.fails_twice
           Stub.no_description_request Stub.w0);
    [reflexivity | right; reflexivity].
Defined.

(** [C7], counterexample: a request without the [job_description]
    field whose body is one byte longer than the limit. Loading the
    form data raises before the fields are looked at, so the request
    gets no 400 response. *)
Lemma oversized_missing_field_is_not_400 :
  lookup "job_description"
    (form (mkRequest (MAX_CONTENT_LENGTH + 1) [("resume", Stub.resume_pdf)] [])) = None
  /\ fst (analyze_resume (Stub.reader Stub.one_page) (Some Stub.fails_twice)
            (mkRequest (MAX_CONTENT_LENGTH + 1) [("resume", Stub.resume_pdf)] [])
            Stub.w0)
     = Raise RequestEntityTooLarge
  /\ response_status
       (fst (analyze_resume (Stub.reader Stub.one_page) (Some Stub.fails_twice)
               (mkRequest (MAX_CONTENT_LENGTH + 1) [("resume", Stub.resume_pdf)] [])
               Stub.w0))
     <> Some 400.
Proof. split; [reflexivity | split; [reflexivity | discriminate]]. Qed.

(** [C8], witness: a constructor that rejects the key. *)
Lemma no_client_degrades_to_500_witness :
  fst (init_client "a-key" Stub.rejecting_constructor Stub.w0) = Return None
  /\ analyze_resume (Stub.reader Stub.one_page) None Stub.good_request Stub.w0
     = (Return (Some (error_response not_initialized 500)), Stub.w0).
Proof.
  destruct (no_client_degrades_to_500 (Stub.reader Stub.one_page)
              "a-key" Stub.rejecting_constructor Stub.w0)
    as (Hinit & _ & Hanalyze & _).
  - right. exists (Exception "Invalid API key"). reflexivity.
  - split; [exact Hinit | apply Hanalyze].
Defined.

(** [C8], counterexample: with the credential absent the status of
    the response to /analyze is 500, not 503. *)
Lemma no_client_status_is_not_503 :
  fst (init_client "" Stub.rejecting_constructor Stub.w0) = Return None
  /\ response_status
       (fst (analyze_resume (Stub.reader Stub.one_page) None Stub.good_request Stub.w0))
     = Some 500
  /\ response_status
       (fst (analyze_resume (Stub.reader Stub.one_page) None Stub.good_request Stub.w0))
     <> Some 503.
Proof. split; [reflexivity | split; [reflexivity | discriminate]]. Qed.

(** [C9], witness: an upload that cannot be read. *)
Lemma exceptions_after_validation_become_500_witness :
  fst (analyze_resume (Stub.reader Stub.one_page) (Some Stub.fails_twice)
         Stub.unreadable_request Stub.w0)
  = Return (Some (error_response
                    "Internal Server Error: I/O operation on closed file." 500)).
Proof.
  destruct (exceptions_after_validation_become_500 (Stub.reader Stub.one_page)
              (Some Stub.fails_twice) Stub.unreadable_request Stub.w0)
    as [_ Hinner]; [vm_compute; discriminate|].
  destruct (Hinner Stub.fails_twice Stub.unreadable_pdf Stub.job eq_refl) as [_ Hread];
    [validate|].
  exact (Hread (Exception "I/O operation on closed file.") eq_refl).
Defined.

(** [C9], counterexample: the body is longer than the limit, loading
    the form data raises in the input validation, which is outside the
    outer [try], and the exception leaves the handler: there is no JSON
    response. *)
Lemma oversized_request_raises :
  load_form_data Stub.oversized_request = Raise RequestEntityTooLarge
  /\ fst (analyze_resume (Stub.reader Stub.one_page) (Some Stub.fails_twice)
            Stub.oversized_request Stub.w0)
     = Raise RequestEntityTooLarge
  /\ response_status
       (fst (analyze_resume (Stub.reader Stub.one_page) (Some Stub.fails_twice)
               Stub.oversized_request Stub.w0))
     <> Some 500.
Proof. split; [reflexivity | split; [reflexivity | discriminate]]. Qed.

(* ================================================================= *)
(** ** More on strings: suffixes, lower case, trimming twice *)

Lemma length_append (a b : string) :
  String.length (a ++ b) = (String.length a + String.length b)%nat.
Proof. induction a as [|c a IH]; simpl; [reflexivity | now rewrite IH]. Qed.

Lemma substring_whole (s : string) : substring 0 (String.length s) s = s.
Proof. induction s as [|c s IH]; simpl; [reflexivity | now rewrite IH]. Qed.

Lemma substring_after (a b : string) :
  substring (String.length a) (String.length b) (a ++ b) = b.
Proof. induction a as [|c a IH]; simpl; [apply substring_whole | exact IH]. Qed.

(** A string is its first [i] characters followed by the rest. *)
Lemma substring_split (s : string) :
  forall i k : nat,
    (i + k)%nat = String.length s ->
    s = substring 0 i s ++ substring i k s.
Proof.
  induction s as [|c s IH]; intros [|i] k H; simpl in *.
  - now destruct k.
  - discriminate.
  - subst k. simpl. now rewrite substring_whole.
  - f_equal. apply IH. lia.
Qed.

Lemma lower_app (a b : string) : lower (a ++ b) = lower a ++ lower b.
Proof. induction a as [|c a IH]; simpl; [reflexivity | now rewrite IH]. Qed.

Lemma length_lower (s : string) : String.length (lower s) = String.length s.
Proof. induction s as [|c s IH]; simpl; [reflexivity | now rewrite IH]. Qed.

Lemma substring_lower (s : string) :
  forall i k : nat, substring i k (lower s) = lower (substring i k s).
Proof.
  induction s as [|c s IH]; intros [|i] [|k]; simpl; try reflexivity.
  - now rewrite IH.
  - apply IH.
  - apply IH.
Qed.

Lemma endswith_app (a b : string) : endswith (a ++ b) b = true.
Proof.
  unfold endswith. rewrite length_append.
  replace (String.length a + String.length b - String.length b)%nat
    with (String.length a) by lia.
  rewrite substring_after, String.eqb_refl.
  apply andb_true_iff. split; [apply Nat.leb_le; lia | reflexivity].
Qed.

Lemma endswith_split (s suffix : string) :
  endswith s suffix = true ->
  s = substring 0 (String.length s - String.length suffix) s ++ suffix.
Proof.
  unfold endswith. intros H. apply andb_true_iff in H as [Hle Heq].
  apply Nat.leb_le in Hle. apply String.eqb_eq in Heq.
  rewrite <- Heq at 2. apply substring_split. lia.
Qed.

Lemma rstrip_idempotent (s : string) : rstrip (rstrip s) = rstrip s.
Proof.
  induction s as [|c s IH]; simpl; [reflexivity|].
  destruct (rstrip s) as [|d r] eqn:Hr.
  - destruct (isspace c) eqn:Hc; simpl; [reflexivity | now rewrite Hc].
  - change (rstrip (String c (String d r))) with
      (match rstrip (String d r) with
       | EmptyString => if isspace c then EmptyString else String c EmptyString
       | r' => String c r'
       end).
    now rewrite IH.
Qed.

Lemma lstrip_rstrip_head (c : ascii) (s : string) :
  isspace c = false -> lstrip (rstrip (String c s)) = rstrip (String c s).
Proof.
  intros Hc. simpl. destruct (rstrip s); rewrite ?Hc; simpl; now rewrite Hc.
Qed.

(** Trimming a trimmed string changes nothing. *)
Lemma strip_idempotent (s : string) : strip (strip s) = strip s.
Proof.
  unfold strip. destruct (blank s) eqn:Hb.
  - now rewrite (lstrip_blank s Hb).
  - destruct (lstrip_not_blank s Hb) as (c & s' & Hl & Hc). rewrite Hl.
    rewrite (lstrip_rstrip_head c s' Hc). apply rstrip_idempotent.
Qed.

(** [X4]. The file-name test of [analyze_resume] looks at the last
    four characters only and ignores their case: a name passes exactly
    when it is some stem, possibly empty, followed by an extension whose
    lower case is ".pdf". *)
Theorem pdf_extension_check (name : string) :
  endswith (lower name) ".pdf" = true
  <-> exists stem ext : string, name = stem ++ ext /\ lower ext = ".pdf".
Proof.
  split.
  - intros H. pose proof H as Hsplit. unfold endswith in H.
    apply andb_true_iff in H as [Hle Heq].
    apply Nat.leb_le in Hle. apply String.eqb_eq in Heq.
    rewrite length_lower in Hle, Heq. rewrite substring_lower in Heq.
    exists (substring 0 (String.length name - 4) name),
           (substring (String.length name - 4) 4 name).
    split; [|exact Heq]. apply substring_split. simpl in Hle. lia.
  - intros (stem & ext & -> & Hext). rewrite lower_app, Hext. apply endswith_app.
Qed.

(* ================================================================= *)
(** ** More on the validation steps *)

Section Validation.

Variable PdfReader : list Byte.byte -> result (list Page).

(** With a client and a form that loads, the handler either accepts
    the request or answers 400 and leaves the world as it was. *)
Lemma validation_cases (client : Client) (request : Request) (w : World) :
  content_length request <= MAX_CONTENT_LENGTH ->
  (exists resume_file job_description, accepted request resume_file job_description)
  \/ (exists msg,
        analyze_resume PdfReader (Some client) request w =
          (Return (Some (error_response msg 400)), w)).
Proof.
  intros Hlen.
  destruct (lookup "resume" (files request)) as [f|] eqn:Hf.
  2:{ right. eexists. load_form Hlen. now rewrite Hf. }
  destruct (lookup "job_description" (form request)) as [jd|] eqn:Hjd.
  2:{ right. eexists. load_form Hlen. now rewrite Hf, Hjd. }
  destruct (String.eqb (filename f) "") eqn:Hname.
  { right. eexists. load_form Hlen. now rewrite Hf, Hjd, Hname. }
  destruct (endswith (lower (filename f)) ".pdf") eqn:Hpdf.
  2:{ right. eexists. load_form Hlen. now rewrite Hf, Hjd, Hname, Hpdf. }
  destruct (strip jd) as [|ch s] eqn:Hstrip.
  { right. eexists. load_form Hlen. now rewrite Hf, Hjd, Hname, Hpdf, Hstrip. }
  left. exists f, jd. repeat split; try assumption.
  - now apply String.eqb_neq.
  - now rewrite Hstrip.
Qed.

(** With both fields present, the three checks in their order: the
    empty file name, the extension, the blank description. *)
Lemma present_fields_cases (client : Client) (request : Request)
    (resume_file : FileStorage) (job_description : string) (w : World) :
  content_length request <= MAX_CONTENT_LENGTH ->
  lookup "resume" (files request) = Some resume_file ->
  lookup "job_description" (form request) = Some job_description ->
  (filename resume_file = ""
   /\ analyze_resume PdfReader (Some client) request w =
        (Return (Some (error_response "No resume file selected." 400)), w))
  \/ (filename resume_file <> ""
      /\ endswith (lower (filename resume_file)) ".pdf" = false
      /\ analyze_resume PdfReader (Some client) request w =
           (Return (Some (error_response
                            "Invalid file type. Please upload a PDF file." 400)), w))
  \/ (filename resume_file <> ""
      /\ endswith (lower (filename resume_file)) ".pdf" = true
      /\ blank job_description = true
      /\ analyze_resume PdfReader (Some client) request w =
           (Return (Some (error_response "Job description cannot be empty." 400)), w))
  \/ (filename resume_file <> ""
      /\ endswith (lower (filename resume_file)) ".pdf" = true
      /\ blank job_description = false
      /\ exists v,
           fst (analyze_resume PdfReader (Some client) request w) = Return (Some v)
           /\ success_or_500 v).
Proof.
  intros Hlen Hf Hjd.
  destruct (String.eqb (filename resume_file) "") eqn:Hname.
  { left. split; [now apply String.eqb_eq|].
    load_form Hlen. now rewrite Hf, Hjd, Hname. }
  right. pose proof Hname as Hne. apply String.eqb_neq in Hne.
  destruct (endswith (lower (filename resume_file)) ".pdf") eqn:Hpdf.
  2:{ left. repeat split; [exact Hne|]. load_form Hlen. now rewrite Hf, Hjd, Hname, Hpdf. }
  right. destruct (blank job_description) eqn:Hblank.
  { left. repeat split; [exact Hne|]. load_form Hlen.
    now rewrite Hf, Hjd, Hname, Hpdf, (strip_blank job_description Hblank). }
  right. repeat split; [exact Hne|].
  apply (accepted_returns PdfReader client request resume_file job_description w).
  repeat split; try assumption.
  intros Hstrip. apply strip_empty_iff in Hstrip. congruence.
Qed.

(** A response with status 400 is neither a success nor a 500. *)
Lemma status_400_not_success_or_500 (msg : string) :
  ~ success_or_500 (error_response msg 400).
Proof. intros [[text H] | [m H]]; discriminate H. Qed.

(** [X1]. With both fields present, the 400 response "No resume file
    selected." is given exactly when the file name is empty, whatever
    the job description and the file hold; the file is then not read
    and the client is not invoked. *)
Theorem empty_filename_is_400 (client : Client) (request : Request)
    (resume_file : FileStorage) (job_description : string) (w : World) :
  content_length request <= MAX_CONTENT_LENGTH ->
  lookup "resume" (files request) = Some resume_file ->
  lookup "job_description" (form request) = Some job_description ->
  (fst (analyze_resume PdfReader (Some client) request w)
   = Return (Some (error_response "No resume file selected." 400))
   <-> filename resume_file = "")
  /\ (filename resume_file = "" ->
      snd (analyze_resume PdfReader (Some client) request w) = w).
Proof.
  intros Hlen Hf Hjd.
  destruct (present_fields_cases client request resume_file job_description w Hlen Hf Hjd)
    as [[Hname Hrun] | [(Hname & Hpdf & Hrun) | [(Hname & Hpdf & Hblank & Hrun)
       | (Hname & Hpdf & Hblank & v & Hv & Hgood)]]];
    rewrite ?Hrun, ?Hv; cbn [fst snd].
  - now split.
  - split; [split; [discriminate | contradiction] | contradiction].
  - split; [split; [discriminate | contradiction] | contradiction].
  - split; [split; [|contradiction] | contradiction].
    intros [= ->]. now apply status_400_not_success_or_500 in Hgood.
Qed.

(** [X2]. With both fields present, the 400 response "Invalid file
    type" is given exactly when the file name is not empty and does not
    end in ".pdf" (in any case), whatever the file holds: it is then not
    read, and the client is not invoked. *)
Theorem wrong_extension_is_400 (client : Client) (request : Request)
    (resume_file : FileStorage) (job_description : string) (w : World) :
  content_length request <= MAX_CONTENT_LENGTH ->
  lookup "resume" (files request) = Some resume_file ->
  lookup "job_description" (form request) = Some job_description ->
  (fst (analyze_resume PdfReader (Some client) request w)
   = Return (Some (error_response "Invalid file type. Please upload a PDF file." 400))
   <-> filename resume_file <> ""
       /\ endswith (lower (filename resume_file)) ".pdf" = false)
  /\ (filename resume_file <> ""
      /\ endswith (lower (filename resume_file)) ".pdf" = false ->
      snd (analyze_resume PdfReader (Some client) request w) = w).
Proof.
  intros Hlen Hf Hjd.
  destruct (present_fields_cases client request resume_file job_description w Hlen Hf Hjd)
    as [[Hname Hrun] | [(Hname & Hpdf & Hrun) | [(Hname & Hpdf & Hblank & Hrun)
       | (Hname & Hpdf & Hblank & v & Hv & Hgood)]]];
    rewrite ?Hrun, ?Hv; cbn [fst snd].
  - split; [split; [discriminate | intros [H _]; contradiction]
           | intros [H _]; contradiction].
  - now split.
  - split; [split; [discriminate | intros [_ H]; congruence] | intros [_ H]; congruence].
  - split; [split; [|intros [_ H]; congruence] | intros [_ H]; congruence].
    intros [= ->]. now apply status_400_not_success_or_500 in Hgood.
Qed.

(** [X3]. With both fields present and a well-named file, the 400
    response "Job description cannot be empty." is given exactly when
    the job description is empty or all whitespace; the file is then not
    read, so even an unreadable upload gets this 400, and the client is
    not invoked. *)
Theorem blank_description_is_400 (client : Client) (request : Request)
    (resume_file : FileStorage) (job_description : string) (w : World) :
  content_length request <= MAX_CONTENT_LENGTH ->
  lookup "resume" (files request) = Some resume_file ->
  lookup "job_description" (form request) = Some job_description ->
  filename resume_file <> "" ->
  endswith (lower (filename resume_file)) ".pdf" = true ->
  (fst (analyze_resume PdfReader (Some client) request w)
   = Return (Some (error_response "Job description cannot be empty." 400))
   <-> blank job_description = true)
  /\ (blank job_description = true ->
      snd (analyze_resume PdfReader (Some client) request w) = w).
Proof.
  intros Hlen Hf Hjd Hne Hext.
  destruct (present_fields_cases client request resume_file job_description w Hlen Hf Hjd)
    as [[Hname Hrun] | [(Hname & Hpdf & Hrun) | [(Hname & Hpdf & Hblank & Hrun)
       | (Hname & Hpdf & Hblank & v & Hv & Hgood)]]];
    rewrite ?Hrun, ?Hv; cbn [fst snd]; try contradiction; try congruence.
  - now split.
  - split; [split; [|congruence] | congruence].
    intros [= ->]. now apply status_400_not_success_or_500 in Hgood.
Qed.

(** [X5]. With a client and a form that loads, the status is 400
    exactly when the request fails the validation, and then the world
    is left as it was: nothing is printed, read, called or slept. *)
Theorem status_400_iff_not_accepted (client : Client) (request : Request) (w : World) :
  content_length request <= MAX_CONTENT_LENGTH ->
  ((exists msg,
       fst (analyze_resume PdfReader (Some client) request w)
       = Return (Some (error_response msg 400)))
   <-> ~ (exists resume_file job_description,
            accepted request resume_file job_description))
  /\ (~ (exists resume_file job_description,
           accepted request resume_file job_description) ->
      snd (analyze_resume PdfReader (Some client) request w) = w).
Proof.
  intros Hlen. split; [split|].
  - intros [msg Hmsg] (f & jd & Hacc).
    destruct (accepted_returns PdfReader client request f jd w Hacc) as (v & Hv & Hgood).
    rewrite Hv in Hmsg. injection Hmsg as ->.
    destruct Hgood as [[text H] | [m H]]; discriminate H.
  - intros Hno. destruct (validation_cases client request w Hlen) as [Hacc | [msg Hmsg]].
    + contradiction.
    + exists msg. now rewrite Hmsg.
  - intros Hno. destruct (validation_cases client request w Hlen) as [Hacc | [msg Hmsg]].
    + contradiction.
    + now rewrite Hmsg.
Qed.

(** [X16]. With a client, a request whose body is longer than
    [MAX_CONTENT_LENGTH] makes the handler raise [RequestEntityTooLarge]
    when it loads the form, whatever the form holds; nothing else
    happens. *)
Theorem oversized_body_raises (client : Client) (request : Request) (w : World) :
  MAX_CONTENT_LENGTH < content_length request ->
  analyze_resume PdfReader (Some client) request w = (Raise RequestEntityTooLarge, w).
Proof.
  intros Hlen. apply Z.ltb_lt in Hlen.
  unfold analyze_resume, request_files, load_form_data, bind, eval.
  now rewrite Hlen.
Qed.

End Validation.

(* ================================================================= *)
(** ** More on the text extractor *)

Lemma page_texts_app (p1 p2 : list Page) :
  page_texts (p1 ++ p2) =
    match page_texts p1 with
    | Raise e => Raise e
    | Return t1 =>
        match page_texts p2 with
        | Raise e => Raise e
        | Return t2 => Return (t1 ++ t2)%list
        end
    end.
Proof.
  induction p1 as [|[t|e] p1 IH]; simpl.
  - now destruct (page_texts p2).
  - rewrite IH. destruct (page_texts p1); [|reflexivity].
    now destruct (page_texts p2).
  - reflexivity.
Qed.

Lemma page_texts_no_raise (pages : list Page) (ts : list string) :
  page_texts pages = Return ts -> existsb page_raises pages = false.
Proof.
  revert ts. induction pages as [|[t|e] pages IH]; simpl; intros ts H;
    [reflexivity | | discriminate].
  destruct (page_texts pages) as [ts'|e]; [|discriminate]. now apply (IH ts').
Qed.

Lemma page_texts_raise_inv (pages : list Page) (e : exn) :
  page_texts pages = Raise e -> existsb page_raises pages = true.
Proof.
  revert e. induction pages as [|[t|e'] pages IH]; simpl; intros e H;
    [discriminate | | reflexivity].
  destruct (page_texts pages) as [ts|e0]; [discriminate | now apply (IH e0)].
Qed.

Lemma page_texts_map (pages : list Page) (ts : list string) :
  page_texts pages = Return ts -> pages = map Return ts.
Proof.
  revert ts. induction pages as [|[t|e] pages IH]; simpl; intros ts H.
  - now injection H as <-.
  - destruct (page_texts pages) as [ts'|e]; [|discriminate].
    injection H as <-. simpl. now rewrite (IH ts').
  - discriminate.
Qed.

Lemma lines_app (a b : list string) : lines (a ++ b) = lines a ++ lines b.
Proof.
  induction a as [|t a IH]; [reflexivity|].
  cbn [app lines]. now rewrite IH, !append_assoc'.
Qed.

(** The accumulated text is blank only if every page text is. *)
Lemma lines_blank_inv (ts : list string) :
  blank (lines (filter truthy ts)) = true -> forallb blank ts = true.
Proof.
  induction ts as [|t ts IH]; [reflexivity|].
  cbn [filter forallb]. destruct t as [|c t]; cbn [truthy].
  - intros H. now rewrite (IH H).
  - cbn [lines]. rewrite !blank_app. intros H.
    apply andb_true_iff in H as [Ht H]. apply andb_true_iff in H as [_ H].
    now rewrite Ht, (IH H).
Qed.

Lemma forallb_page_blank_map (ts : list string) :
  forallb page_blank (map Return ts) = forallb blank ts.
Proof. induction ts as [|t ts IH]; simpl; [reflexivity | now rewrite IH]. Qed.

(** Blank text before or after does not survive the trimming. *)
Lemma strip_between_blanks (a s b : string) :
  blank a = true -> blank b = true -> strip (a ++ s ++ b) = strip s.
Proof.
  intros Ha Hb. rewrite <- (strip_app_blank s b Hb).
  unfold strip. now rewrite lstrip_app, Ha.
Qed.

Section ExtractorFacts.

Variable PdfReader : list Byte.byte -> result (list Page).

(** A document with some text gives the extractor a non-empty
    result, and nothing is printed. *)
Lemma extract_some_text (data : list Byte.byte) (w : World) :
  no_extractable_text (PdfReader data) = false ->
  exists c text,
    extract_text_from_pdf PdfReader data w = (Return (Some (String c text)), w).
Proof.
  intros H. rewrite extract_text_from_pdf_eq. unfold no_extractable_text in H.
  destruct (PdfReader data) as [pages|e]; [|discriminate].
  apply orb_false_iff in H as [Hraise Hblank].
  destruct (page_texts pages) as [ts|e] eqn:Hts.
  - destruct (strip (lines (filter truthy ts))) as [|c text] eqn:Hstrip.
    + apply strip_empty_iff, lines_blank_inv in Hstrip.
      rewrite (page_texts_map pages ts Hts), forallb_page_blank_map in Hblank.
      congruence.
    + now exists c, text.
  - rewrite (page_texts_raise_inv pages e Hts) in Hraise. discriminate.
Qed.

(** [X6]. A text the extractor returns is trimmed already: trimming
    it again changes nothing, so it neither starts nor ends with
    whitespace. *)
Theorem extracted_text_is_trimmed (data : list Byte.byte) (w : World) (text : string) :
  fst (extract_text_from_pdf PdfReader data w) = Return (Some text) ->
  strip text = text /\ lstrip text = text /\ rstrip text = text.
Proof.
  rewrite extract_text_from_pdf_eq.
  destruct (PdfReader data) as [pages|e]; [|discriminate].
  destruct (page_texts pages) as [ts|e]; [|discriminate].
  simpl. intros [= <-]. set (s := lines (filter truthy ts)).
  assert (Hr : rstrip (strip s) = strip s) by apply rstrip_idempotent.
  assert (Hs : strip (strip s) = strip s) by apply strip_idempotent.
  repeat split; [exact Hs | | exact Hr].
  destruct (blank s) eqn:Hb.
  - now rewrite (strip_blank s Hb).
  - destruct (lstrip_not_blank s Hb) as (c & s' & Hl & Hc).
    unfold strip. rewrite Hl. now apply lstrip_rstrip_head.
Qed.

(** [X9]. The extractor returns [None] exactly when the document
    does not parse or the extraction of one of its pages raises; a
    single such page loses the text of all the others. *)
Theorem extract_None_iff_raises (data : list Byte.byte) (w : World) :
  fst (extract_text_from_pdf PdfReader data w) = Return None
  <-> match PdfReader data with
      | Raise _ => True
      | Return pages => existsb page_raises pages = true
      end.
Proof.
  rewrite extract_text_from_pdf_eq.
  destruct (PdfReader data) as [pages|e]; [|now split].
  destruct (page_texts pages) as [ts|e] eqn:Hts; simpl.
  - rewrite (page_texts_no_raise pages ts Hts). split; discriminate.
  - rewrite (page_texts_raise_inv pages e Hts). now split.
Qed.

End ExtractorFacts.

(** [X7]. A page that yields the empty string is skipped: the
    extractor gives the same result for the document without it,
    wherever the page stands. *)
Theorem empty_page_is_skipped
    (PdfReader PdfReader' : list Byte.byte -> result (list Page))
    (data data' : list Byte.byte) (before after : list Page) (w : World) :
  PdfReader data = Return (before ++ Return "" :: after)%list ->
  PdfReader' data' = Return (before ++ after)%list ->
  extract_text_from_pdf PdfReader data w = extract_text_from_pdf PdfReader' data' w.
Proof.
  intros H H'. rewrite !extract_text_from_pdf_eq, H, H', !page_texts_app.
  destruct (page_texts before) as [tb|e]; [|reflexivity].
  cbn [page_texts]. destruct (page_texts after) as [ta|e]; [|reflexivity].
  now rewrite !filter_app.
Qed.

(** [X8]. Pages of whitespace at the start and at the end of a
    document do not change the text the extractor returns (such a page
    between two pages with text does leave its whitespace there). *)
Theorem blank_edge_pages_are_ignored
    (PdfReader PdfReader' : list Byte.byte -> result (list Page))
    (data data' : list Byte.byte) (leading pages trailing : list Page) (w : World) :
  PdfReader data = Return (leading ++ pages ++ trailing)%list ->
  PdfReader' data' = Return pages ->
  forallb page_blank leading = true ->
  forallb page_blank trailing = true ->
  fst (extract_text_from_pdf PdfReader data w)
  = fst (extract_text_from_pdf PdfReader' data' w).
Proof.
  intros H H' Hlead Htrail.
  rewrite !extract_text_from_pdf_eq, H, H', !page_texts_app.
  destruct (page_texts_blank leading Hlead) as (tl & -> & Hbl).
  destruct (page_texts_blank trailing Htrail) as (tt & Htt & Hbt).
  destruct (page_texts pages) as [ts|e]; [|reflexivity].
  rewrite Htt. cbn [fst]. rewrite !filter_app, !lines_app.
  rewrite strip_between_blanks; [reflexivity | |];
    now apply blank_lines, forallb_filter_blank.
Qed.

(* ================================================================= *)
(** ** More on the retry loop *)

Section RetryLoopFacts.

Variable client : Client.
Variable prompt : string.

(** The three attempts, cut at attempt [k]. *)
Lemma attempts_split (k : nat) :
  (k < 3)%nat ->
  exists rest,
    [0; 1; 2] = (range (Z.of_nat k) ++ Z.of_nat k :: rest)%list
    /\ List.length (range (Z.of_nat k)) = k
    /\ Forall (fun a => a < MAX_RETRIES - 1) (range (Z.of_nat k)).
Proof.
  intros Hk.
  destruct k as [|[|[|k]]]; [exists [1; 2] | exists [2] | exists [] | lia];
    (split; [reflexivity | split; [reflexivity | repeat constructor]]).
Qed.

(** The loop of [analyze_resume] after [k] API errors, when attempt
    [k] returns [v]. *)
Lemma retry_loop_stops (k : nat) (v : ViewResult) (w : World) :
  (k < 3)%nat ->
  (forall i, (i < k)%nat ->
             exists m, answers client (call_count w + i) prompt = Raise (APIError m)) ->
  (forall w1, call_count w1 = (call_count w + k)%nat ->
              exists w',
                attempt_body client prompt (Z.of_nat k) w1 = (Return (Some v), w')
                /\ trace w' = (trace w1 ++ [call_event prompt])%list) ->
  exists w',
    retry_loop client prompt [0; 1; 2] w = (Return (Some v), w')
    /\ trace w' =
         (trace w ++ flat_map (failed_attempt prompt) (range (Z.of_nat k))
                  ++ [call_event prompt])%list.
Proof.
  intros Hk Herr Hlast.
  destruct (attempts_split k Hk) as (rest & -> & Hlen & Hlt).
  apply retry_loop_ends; rewrite ?Hlen; assumption.
Qed.

Lemma retry_loop_stops_at (k : nat) (w : World) :
  (k < 3)%nat ->
  (forall i, (i < k)%nat ->
             exists m, answers client (call_count w + i) prompt = Raise (APIError m)) ->
  (forall m, answers client (call_count w + k) prompt = Raise (APIError m) -> k = 2%nat) ->
  exists v w',
    retry_loop client prompt [0; 1; 2] w = (Return (Some v), w')
    /\ trace w' =
         (trace w ++ flat_map (failed_attempt prompt) (range (Z.of_nat k))
                  ++ [call_event prompt])%list
    /\ explains k (answers client (call_count w + k) prompt) v.
Proof.
  intros Hk Herr Hapi.
  destruct (answers client (call_count w + k) prompt) as [text|[m|m]] eqn:Hans.
  - destruct (retry_loop_stops k (success_response text) w Hk Herr) as (w' & Hrun & Htr).
    { intros w1 Hw1. apply attempt_success. now rewrite Hw1. }
    now exists (success_response text), w'.
  - pose proof (Hapi m eq_refl) as ->.
    destruct (retry_loop_stops 2
                (error_response ("Gemini API Error after 3 attempts: " ++ m) 500)
                w Hk Herr) as (w' & Hrun & Htr).
    { intros w1 Hw1. apply attempt_api_error_final; [now rewrite Hw1|].
      unfold MAX_RETRIES. simpl. lia. }
    eexists _, w'. repeat split; eassumption.
  - destruct (retry_loop_stops k (error_response ("Unexpected error: " ++ m) 500)
                w Hk Herr) as (w' & Hrun & Htr).
    { intros w1 Hw1. apply attempt_unexpected. now rewrite Hw1. }
    eexists _, w'. repeat split; eassumption.
Qed.

(** Whatever the client does, the loop makes [k + 1] calls for some
    [k] below 3: [k] calls that end in an API error, each followed by
    its sleep, and a last call whose answer decides the response. *)
Lemma retry_loop_shape (w : World) :
  exists (k : nat) v w',
    (k < 3)%nat
    /\ retry_loop client prompt [0; 1; 2] w = (Return (Some v), w')
    /\ trace w' =
         (trace w ++ flat_map (failed_attempt prompt) (range (Z.of_nat k))
                  ++ [call_event prompt])%list
    /\ (forall i, (i < k)%nat ->
                  exists m, answers client (call_count w + i) prompt = Raise (APIError m))
    /\ explains k (answers client (call_count w + k) prompt) v.
Proof.
  assert (Hfound : exists k : nat,
             (k < 3)%nat
             /\ (forall i, (i < k)%nat ->
                   exists m, answers client (call_count w + i) prompt = Raise (APIError m))
             /\ (forall m, answers client (call_count w + k) prompt = Raise (APIError m) ->
                           k = 2%nat)).
  { destruct (answers client (call_count w + 0) prompt) as [t0|[m0|m0]] eqn:H0.
    2:{ destruct (answers client (call_count w + 1) prompt) as [t1|[m1|m1]] eqn:H1.
        2:{ exists 2%nat. split; [lia|]. split; [|reflexivity].
            intros [|[|i]] Hi; [now exists m0 | now exists m1 | lia]. }
        all: exists 1%nat; split; [lia|]; split;
          [intros [|i] Hi; [now exists m0 | lia] | intros m Hm; congruence]. }
    all: exists 0%nat; split; [lia|]; split;
      [intros i Hi; lia | intros m Hm; congruence]. }
  destruct Hfound as (k & Hk & Herr & Hapi).
  destruct (retry_loop_stops_at k w Hk Herr Hapi) as (v & w' & Hrun & Htr & Hexp).
  now exists k, v, w'.
Qed.

Lemma sleeps_of_failed_attempts (k : nat) :
  (k < 3)%nat ->
  sleeps (flat_map (failed_attempt prompt) (range (Z.of_nat k)) ++ [call_event prompt])
  = firstn k [1; 2].
Proof. destruct k as [|[|[|k]]]; [reflexivity | reflexivity | reflexivity | lia]. Qed.

End RetryLoopFacts.

(* ================================================================= *)
(** ** More on the request handler *)

Section HandlerFacts.

Variable PdfReader : list Byte.byte -> result (list Page).

(** An accepted request with a text: the shape of the retry loop is
    the shape of the whole handler. *)
Lemma analyze_resume_shape (client : Client) (request : Request)
    (resume_file : FileStorage) (job_description : string)
    (data : list Byte.byte) (text : string) (w : World) :
  accepted request resume_file job_description ->
  read resume_file = Return data ->
  fst (extract_text_from_pdf PdfReader data w) = Return (Some text) ->
  text <> "" ->
  exists (k : nat) v,
    (k < 3)%nat
    /\ fst (analyze_resume PdfReader (Some client) request w) = Return (Some v)
    /\ trace (snd (analyze_resume PdfReader (Some client) request w)) =
         (trace w
          ++ flat_map (failed_attempt (user_prompt job_description text))
               (range (Z.of_nat k))
          ++ [call_event (user_prompt job_description text)])%list
    /\ (forall i, (i < k)%nat ->
          exists m, answers client (call_count w + i) (user_prompt job_description text)
                    = Raise (APIError m))
    /\ explains k
         (answers client (call_count w + k) (user_prompt job_description text)) v.
Proof.
  intros Hacc Hread Htext Hne.
  destruct (retry_loop_shape client (user_prompt job_description text) w)
    as (k & v & w' & Hk & Hloop & Htr & Herr & Hexp).
  rewrite (analyze_resume_retry PdfReader client request resume_file job_description
             data text w w' v Hacc Hread Htext Hne Hloop).
  now exists k, v.
Qed.

Lemma call_count_after (w w' : World) (prompt : string) (k : nat) :
  trace w' =
    (trace w ++ flat_map (failed_attempt prompt) (range (Z.of_nat k))
             ++ [call_event prompt])%list ->
  (k < 3)%nat ->
  call_count w' = (call_count w + k + 1)%nat.
Proof.
  intros Htr Hk. rewrite (call_count_trace w w' _ Htr), filter_app, length_app.
  rewrite failed_attempts_calls.
  destruct k as [|[|[|k]]]; simpl; lia.
Qed.

(** [X10]. For an accepted request with a readable upload, the
    Gemini client is invoked exactly when the document has extractable
    text: a document without any leads to no call, every other document
    to at least one. *)
Theorem client_called_iff_text (client : Client) (request : Request)
    (resume_file : FileStorage) (job_description : string)
    (data : list Byte.byte) (w : World) :
  accepted request resume_file job_description ->
  read resume_file = Return data ->
  (call_count (snd (analyze_resume PdfReader (Some client) request w)) = call_count w
   <-> no_extractable_text (PdfReader data) = true).
Proof.
  intros Hacc Hread. split.
  - intros Hcount. destruct (no_extractable_text (PdfReader data)) eqn:Hno; [reflexivity|].
    destruct (extract_some_text PdfReader data w Hno) as (c & text & Hext).
    destruct (analyze_resume_shape client request resume_file job_description data
                (String c text) w Hacc Hread) as (k & v & Hk & _ & Htr & _);
      [now rewrite Hext | discriminate |].
    rewrite (call_count_after _ _ _ k Htr Hk) in Hcount. lia.
  - intros Hno.
    rewrite (analyze_resume_accepted PdfReader client request resume_file
               job_description w Hacc).
    destruct (analysis_no_text PdfReader client resume_file job_description data w
                Hread Hno) as (w' & Hrun & Htr).
    rewrite (try_except_return _ _ w w' _ Hrun). unfold call_count. simpl.
    now rewrite Htr.
Qed.

(** [X11]. Whatever the client does, an accepted request with a text
    leads to one, two or three calls, all with the same prompt; each
    call but the last is followed by its sleep, so the sleeps are none,
    1 second, or 1 and then 2 seconds, and there is never a sleep after
    the last call. *)
Theorem retries_are_bounded (client : Client) (request : Request)
    (resume_file : FileStorage) (job_description : string)
    (data : list Byte.byte) (text : string) (w : World) :
  accepted request resume_file job_description ->
  read resume_file = Return data ->
  fst (extract_text_from_pdf PdfReader data w) = Return (Some text) ->
  text <> "" ->
  exists k : nat,
    (k < 3)%nat
    /\ trace (snd (analyze_resume PdfReader (Some client) request w)) =
         (trace w
          ++ flat_map (failed_attempt (user_prompt job_description text))
               (range (Z.of_nat k))
          ++ [call_event (user_prompt job_description text)])%list
    /\ call_count (snd (analyze_resume PdfReader (Some client) request w))
       = (call_count w + k + 1)%nat
    /\ sleeps (trace (snd (analyze_resume PdfReader (Some client) request w)))
       = (sleeps (trace w) ++ firstn k [1; 2])%list.
Proof.
  intros Hacc Hread Htext Hne.
  destruct (analyze_resume_shape client request resume_file job_description data
              text w Hacc Hread Htext Hne) as (k & v & Hk & _ & Htr & _).
  exists k. repeat split; [exact Hk | exact Htr | |].
  - exact (call_count_after _ _ _ k Htr Hk).
  - rewrite Htr, sleeps_app. now rewrite sleeps_of_failed_attempts.
Qed.

(** [X12]. The first success ends the loop: when attempt [k]
    (counted from 0, after [k] API errors) succeeds, the handler returns
    the 200 response with the generated text as it is, after [k + 1]
    calls and the sleeps of the [k] failed attempts. *)
Theorem first_success_wins (client : Client) (request : Request)
    (resume_file : FileStorage) (job_description : string)
    (data : list Byte.byte) (text : string) (w : World)
    (k : nat) (generated : string) :
  accepted request resume_file job_description ->
  read resume_file = Return data ->
  fst (extract_text_from_pdf PdfReader data w) = Return (Some text) ->
  text <> "" ->
  (k < 3)%nat ->
  (forall i, (i < k)%nat ->
     exists m, answers client (call_count w + i) (user_prompt job_description text)
               = Raise (APIError m)) ->
  answers client (call_count w + k) (user_prompt job_description text)
    = Return generated ->
  fst (analyze_resume PdfReader (Some client) request w)
    = Return (Some (success_response generated))
  /\ call_count (snd (analyze_resume PdfReader (Some client) request w))
     = (call_count w + k + 1)%nat
  /\ sleeps (trace (snd (analyze_resume PdfReader (Some client) request w)))
     = (sleeps (trace w) ++ firstn k [1; 2])%list.
Proof.
  intros Hacc Hread Htext Hne Hk Herr Hans.
  destruct (retry_loop_stops client (user_prompt job_description text) k
              (success_response generated) w Hk Herr) as (w' & Hloop & Htr).
  { intros w1 Hw1. apply attempt_success. now rewrite Hw1. }
  rewrite (analyze_resume_retry PdfReader client request resume_file job_description
             data text w w' _ Hacc Hread Htext Hne Hloop).
  cbn [fst snd]. repeat split.
  - exact (call_count_after _ _ _ k Htr Hk).
  - rewrite Htr, sleeps_app. now rewrite sleeps_of_failed_attempts.
Qed.

(** [X13]. A 200 response carries the text of the last answer of the
    client, unchanged: if the handler returns success with [generated],
    then some attempt [k] below 3 was answered with [generated], the
    attempts before it ended in API errors, and no call followed. *)
Theorem success_carries_last_answer (client : Client) (request : Request)
    (resume_file : FileStorage) (job_description : string)
    (data : list Byte.byte) (text : string) (w : World) (generated : string) :
  accepted request resume_file job_description ->
  read resume_file = Return data ->
  fst (extract_text_from_pdf PdfReader data w) = Return (Some text) ->
  text <> "" ->
  fst (analyze_resume PdfReader (Some client) request w)
    = Return (Some (success_response generated)) ->
  exists k : nat,
    (k < 3)%nat
    /\ answers client (call_count w + k) (user_prompt job_description text)
       = Return generated
    /\ (forall i, (i < k)%nat ->
          exists m, answers client (call_count w + i) (user_prompt job_description text)
                    = Raise (APIError m))
    /\ call_count (snd (analyze_resume PdfReader (Some client) request w))
       = (call_count w + k + 1)%nat.
Proof.
  intros Hacc Hread Htext Hne Hresp.
  destruct (analyze_resume_shape client request resume_file job_description data
              text w Hacc Hread Htext Hne) as (k & v & Hk & Hv & Htr & Herr & Hexp).
  rewrite Hv in Hresp. injection Hresp as ->.
  exists k. repeat split; [exact Hk | | exact Herr | exact (call_count_after _ _ _ k Htr Hk)].
  unfold explains in Hexp.
  destruct (answers client (call_count w + k) (user_prompt job_description text))
    as [t|[m|m]].
  - now injection Hexp as <-.
  - destruct Hexp as [_ Hexp]. discriminate Hexp.
  - discriminate Hexp.
Qed.

(** [X14]. The response "Gemini API Error after 3 attempts" is given
    only when all three calls ended in an API error, and its detail is
    that of the third. *)
Theorem exhaustion_means_three_api_errors (client : Client) (request : Request)
    (resume_file : FileStorage) (job_description : string)
    (data : list Byte.byte) (text : string) (w : World) (detail : string) :
  accepted request resume_file job_description ->
  read resume_file = Return data ->
  fst (extract_text_from_pdf PdfReader data w) = Return (Some text) ->
  text <> "" ->
  fst (analyze_resume PdfReader (Some client) request w)
    = Return (Some (error_response ("Gemini API Error after 3 attempts: " ++ detail) 500)) ->
  (forall i, (i < 2)%nat ->
     exists m, answers client (call_count w + i) (user_prompt job_description text)
               = Raise (APIError m))
  /\ answers client (call_count w + 2) (user_prompt job_description text)
     = Raise (APIError detail)
  /\ call_count (snd (analyze_resume PdfReader (Some client) request w))
     = (call_count w + 3)%nat.
Proof.
  intros Hacc Hread Htext Hne Hresp.
  destruct (analyze_resume_shape client request resume_file job_description data
              text w Hacc Hread Htext Hne) as (k & v & Hk & Hv & Htr & Herr & Hexp).
  rewrite Hv in Hresp. injection Hresp as ->.
  pose proof (call_count_after _ _ _ k Htr Hk) as Hcount.
  unfold explains in Hexp.
  destruct (answers client (call_count w + k) (user_prompt job_description text))
    as [t|[m|m]] eqn:Hans.
  - discriminate Hexp.
  - destruct Hexp as [-> Hexp]. simpl in Hexp. injection Hexp as ->.
    repeat split; [exact Herr | exact Hans | rewrite Hcount; lia].
  - simpl in Hexp. discriminate Hexp.
Qed.

End HandlerFacts.

(** [X15]. The initialisation leaves a client exactly when the key
    is not empty and the constructor returns one; it raises nothing
    and touches neither the Gemini client nor the clock. *)
Theorem init_client_Some_iff (GEMINI_API_KEY : string)
    (genai_Client : string -> result Client) (w : World) (client : Client) :
  (fst (init_client GEMINI_API_KEY genai_Client w) = Return (Some client)
   <-> GEMINI_API_KEY <> "" /\ genai_Client GEMINI_API_KEY = Return client)
  /\ (exists c, fst (init_client GEMINI_API_KEY genai_Client w) = Return c)
  /\ trace (snd (init_client GEMINI_API_KEY genai_Client w)) = trace w.
Proof.
  unfold init_client, try_except, bind, eval.
  destruct GEMINI_API_KEY as [|ch key]; cbn [truthy].
  - split; [split | split; [now eexists | reflexivity]].
    + discriminate.
    + intros [Hkey _]. congruence.
  - destruct (genai_Client (String ch key)) as [c|e]; simpl;
      (split; [split | split; [now eexists | reflexivity]]).
    + intros [= ->]. now split.
    + intros [_ [= ->]]. reflexivity.
    + discriminate.
    + intros [_ Hc]. discriminate Hc.
Qed.

(* ================================================================= *)
(** ** What a request can cost *)

Section Bounds.

Variable PdfReader : list Byte.byte -> result (list Page).

(** Every run of the handler either leaves the trace alone or adds
    the calls and sleeps of a retry loop to it. *)
Lemma handler_trace_cases (client : option Client) (request : Request) (w : World) :
  trace (snd (analyze_resume PdfReader client request w)) = trace w
  \/ exists (k : nat) (prompt : string),
       (k < 3)%nat
       /\ trace (snd (analyze_resume PdfReader client request w)) =
            (trace w ++ flat_map (failed_attempt prompt) (range (Z.of_nat k))
                     ++ [call_event prompt])%list.
Proof.
  destruct client as [client|]; [|now left].
  destruct (Z.lt_ge_cases MAX_CONTENT_LENGTH (content_length request)) as [Hbig|Hlen].
  { left. apply Z.ltb_lt in Hbig.
    unfold analyze_resume, request_files, load_form_data, bind, eval.
    now rewrite Hbig. }
  destruct (validation_cases PdfReader client request w Hlen)
    as [(f & jd & Hacc) | [msg Hmsg]]; [|left; now rewrite Hmsg].
  destruct (read f) as [data|e] eqn:Hread.
  - destruct (no_extractable_text (PdfReader data)) eqn:Hno.
    + left. rewrite (analyze_resume_accepted PdfReader client request f jd w Hacc).
      destruct (analysis_no_text PdfReader client f jd data w Hread Hno)
        as (w' & Hrun & Htr).
      now rewrite (try_except_return _ _ w w' _ Hrun).
    + right. destruct (extract_some_text PdfReader data w Hno) as (c & text & Hext).
      destruct (analyze_resume_shape PdfReader client request f jd data
                  (String c text) w Hacc Hread) as (k & v & Hk & _ & Htr & _);
        [now rewrite Hext | discriminate |].
      now exists k, (user_prompt jd (String c text)).
  - left. rewrite (analyze_resume_accepted PdfReader client request f jd w Hacc).
    unfold try_except, analysis, bind, eval. now rewrite Hread.
Qed.

(** [X17]. No request costs more than three calls of the Gemini
    client and three seconds of sleep: whatever the client, the request
    and the document, the handler only adds to the trace, it adds at
    most three calls, and the sleeps it adds are none, 1 second, or 1
    and then 2 seconds, one fewer than the calls. *)
Theorem handler_effects_are_bounded (client : option Client) (request : Request)
    (w : World) :
  exists (added : list event) (k : nat),
    trace (snd (analyze_resume PdfReader client request w)) = (trace w ++ added)%list
    /\ (k <= 3)%nat
    /\ List.length (filter is_call added) = k
    /\ sleeps added = firstn (k - 1) [1; 2].
Proof.
  destruct (handler_trace_cases client request w) as [Hsame | (k & prompt & Hk & Htr)].
  - exists [], 0%nat. rewrite app_nil_r. repeat split; [exact Hsame | lia].
  - exists (flat_map (failed_attempt prompt) (range (Z.of_nat k)) ++ [call_event prompt])%list,
           (S k).
    repeat split; [exact Htr | lia | |].
    + rewrite filter_app, length_app, failed_attempts_calls.
      destruct k as [|[|[|k]]]; simpl; lia.
    + rewrite (sleeps_of_failed_attempts prompt k Hk). f_equal. lia.
Qed.

End Bounds.

(* ================================================================= *)
(** ** Instances of the further properties *)

(** [X1], witness: an upload without a file name. *)
Lemma empty_filename_is_400_witness :
  fst (analyze_resume (Stub.reader Stub.one_page) (Some Stub.fails_twice)
         (Stub.upload "" Stub.job) Stub.w0)
  = Return (Some (error_response "No resume file selected." 400))
  /\ snd (analyze_resume (Stub.reader Stub.one_page) (Some Stub.fails_twice)
            (Stub.upload "" Stub.job) Stub.w0) = Stub.w0.
Proof.
  destruct (empty_filename_is_400 (Stub.reader Stub.one_page) Stub.fails_twice
              (Stub.upload "" Stub.job) (mkFileStorage "" (Return [])) Stub.job Stub.w0)
    as [Hiff Hworld]; [vm_compute; discriminate | reflexivity | reflexivity |].
  split; [apply Hiff; reflexivity | apply Hworld; reflexivity].
Defined.

(** [X2], witness: a Word document. *)
Lemma wrong_extension_is_400_witness :
  fst (analyze_resume (Stub.reader Stub.one_page) (Some Stub.fails_twice)
         (Stub.upload "resume.docx" Stub.job) Stub.w0)
  = Return (Some (error_response "Invalid file type. Please upload a PDF file." 400))
  /\ snd (analyze_resume (Stub.reader Stub.one_page) (Some Stub.fails_twice)
            (Stub.upload "resume.docx" Stub.job) Stub.w0) = Stub.w0.
Proof.
  destruct (wrong_extension_is_400 (Stub.reader Stub.one_page) Stub.fails_twice
              (Stub.upload "resume.docx" Stub.job)
              (mkFileStorage "resume.docx" (Return [])) Stub.job Stub.w0)
    as [Hiff Hworld]; [vm_compute; discriminate | reflexivity | reflexivity |].
  split; [apply Hiff | apply Hworld]; (split; [discriminate | reflexivity]).
Defined.

(** [X3], witness: an unreadable upload with a description of three
    spaces. *)
Lemma blank_description_is_400_witness :
  fst (analyze_resume (Stub.reader Stub.one_page) (Some Stub.fails_twice)
         (mkRequest 2048 [("resume", Stub.unreadable_pdf)] [("job_description", "   ")])
         Stub.w0)
  = Return (Some (error_response "Job description cannot be empty." 400))
  /\ snd (analyze_resume (Stub.reader Stub.one_page) (Some Stub.fails_twice)
            (mkRequest 2048 [("resume", Stub.unreadable_pdf)] [("job_description", "   ")])
            Stub.w0) = Stub.w0.
Proof.
  destruct (blank_description_is_400 (Stub.reader Stub.one_page) Stub.fails_twice
              (mkRequest 2048 [("resume", Stub.unreadable_pdf)] [("job_description", "   ")])
              Stub.unreadable_pdf "   " Stub.w0)
    as [Hiff Hworld];
    [vm_compute; discriminate | reflexivity | reflexivity | discriminate | reflexivity |].
  split; [apply Hiff; reflexivity | apply Hworld; reflexivity].
Defined.

(** [X5], witness: a Word document fails the validation. *)
Lemma status_400_iff_not_accepted_witness :
  (exists msg,
      fst (analyze_resume (Stub.reader Stub.one_page) (Some Stub.fails_twice)
             (Stub.upload "resume.docx" Stub.job) Stub.w0)
      = Return (Some (error_response msg 400)))
  /\ snd (analyze_resume (Stub.reader Stub.one_page) (Some Stub.fails_twice)
            (Stub.upload "resume.docx" Stub.job) Stub.w0) = Stub.w0.
Proof.
  destruct (status_400_iff_not_accepted (Stub.reader Stub.one_page) Stub.fails_twice
              (Stub.upload "resume.docx" Stub.job) Stub.w0)
    as [Hiff Hworld]; [vm_compute; discriminate|].
  assert (Hno : ~ (exists f jd, accepted (Stub.upload "resume.docx" Stub.job) f jd)).
  { intros (f & jd & _ & Hf & _ & _ & Hpdf & _).
    simpl in Hf. injection Hf as <-. discriminate Hpdf. }
  split; [apply Hiff, Hno | apply Hworld, Hno].
Defined.

(** [X6], witness: the text of the one-page resume. *)
Lemma extracted_text_is_trimmed_witness :
  strip "Senior Backend Engineer, 5 years Go experience"
  = "Senior Backend Engineer, 5 years Go experience".
Proof.
  apply (extracted_text_is_trimmed (Stub.reader Stub.one_page) [] Stub.w0
           "Senior Backend Engineer, 5 years Go experience").
  reflexivity.
Defined.

(** [X7], witness: an empty page between two pages with text. *)
Lemma empty_page_is_skipped_witness :
  extract_text_from_pdf (Stub.reader [Return "Education"; Return ""; Return "Skills"])
    [] Stub.w0
  = extract_text_from_pdf (Stub.reader [Return "Education"; Return "Skills"]) [] Stub.w0.
Proof.
  apply (empty_page_is_skipped
           (Stub.reader [Return "Education"; Return ""; Return "Skills"])
           (Stub.reader [Return "Education"; Return "Skills"])
           [] [] [Return "Education"] [Return "Skills"] Stub.w0);
    reflexivity.
Defined.

(** [X8], witness: a page of blanks before the resume, an empty page
    after it. *)
Lemma blank_edge_pages_are_ignored_witness :
  fst (extract_text_from_pdf
         (Stub.reader ([Return "  "] ++ Stub.one_page ++ [Return ""])) [] Stub.w0)
  = fst (extract_text_from_pdf (Stub.reader Stub.one_page) [] Stub.w0).
Proof.
  apply (blank_edge_pages_are_ignored
           (Stub.reader ([Return "  "] ++ Stub.one_page ++ [Return ""]))
           (Stub.reader Stub.one_page)
           [] [] [Return "  "] Stub.one_page [Return ""] Stub.w0);
    reflexivity.
Defined.

(** [X10], witness: a scanned document leads to no call. *)
Lemma client_called_iff_text_witness :
  call_count (snd (analyze_resume (Stub.reader Stub.blank_pages) (Some Stub.fails_twice)
                     Stub.good_request Stub.w0)) = call_count Stub.w0.
Proof.
  apply (client_called_iff_text (Stub.reader Stub.blank_pages) Stub.fails_twice
           Stub.good_request Stub.resume_pdf Stub.job [] Stub.w0);
    [validate | reflexivity | reflexivity].
Defined.

(** [X11], witness: a client that fails twice. *)
Lemma retries_are_bounded_witness :
  exists k : nat,
    (k < 3)%nat
    /\ call_count (snd (analyze_resume (Stub.reader Stub.one_page) (Some Stub.fails_twice)
                          Stub.good_request Stub.w0))
       = (call_count Stub.w0 + k + 1)%nat.
Proof.
  destruct (retries_are_bounded (Stub.reader Stub.one_page) Stub.fails_twice
              Stub.good_request Stub.resume_pdf Stub.job []
              "Senior Backend Engineer, 5 years Go experience" Stub.w0)
    as (k & Hk & _ & Hcount & _);
    [validate | reflexivity | reflexivity | discriminate |].
  exists k. split; [exact Hk | exact Hcount].
Defined.

(** [X12], witness: one rate-limit error, then the analysis. *)
Lemma first_success_wins_witness :
  fst (analyze_resume (Stub.reader Stub.one_page)
         (Some (Stub.scripted [Raise (APIError "429 RESOURCE_EXHAUSTED"); Return "**85/100**"]))
         Stub.good_request Stub.w0)
  = Return (Some (success_response "**85/100**"))
  /\ sleeps (trace (snd (analyze_resume (Stub.reader Stub.one_page)
         (Some (Stub.scripted [Raise (APIError "429 RESOURCE_EXHAUSTED"); Return "**85/100**"]))
         Stub.good_request Stub.w0)))
     = [1].
Proof.
  destruct (first_success_wins (Stub.reader Stub.one_page)
              (Stub.scripted [Raise (APIError "429 RESOURCE_EXHAUSTED"); Return "**85/100**"])
              Stub.good_request Stub.resume_pdf Stub.job []
              "Senior Backend Engineer, 5 years Go experience" Stub.w0
              1%nat "**85/100**")
    as (Hresp & _ & Hsleeps);
    [validate | reflexivity | reflexivity | discriminate | lia | | reflexivity |].
  - intros [|i] Hi; [now exists "429 RESOURCE_EXHAUSTED" | lia].
  - split; [exact Hresp | exact Hsleeps].
Defined.

(** [X13], witness: the 200 response of the client that fails
    twice. *)
Lemma success_carries_last_answer_witness :
  exists k : nat,
    (k < 3)%nat
    /\ answers Stub.fails_twice (call_count Stub.w0 + k)
         (user_prompt Stub.job "Senior Backend Engineer, 5 years Go experience")
       = Return "**85/100**".
Proof.
  destruct (success_carries_last_answer (Stub.reader Stub.one_page) Stub.fails_twice
              Stub.good_request Stub.resume_pdf Stub.job []
              "Senior Backend Engineer, 5 years Go experience" Stub.w0 "**85/100**")
    as (k & Hk & Hans & _);
    [validate | reflexivity | reflexivity | discriminate | reflexivity |].
  exists k. split; [exact Hk | exact Hans].
Defined.

(** [X14], witness: the 500 response of the client that always
    fails. *)
Lemma exhaustion_means_three_api_errors_witness :
  answers Stub.fails_always (call_count Stub.w0 + 2)
    (user_prompt Stub.job "Senior Backend Engineer, 5 years Go experience")
  = Raise (APIError "401 UNAUTHENTICATED")
  /\ call_count (snd (analyze_resume (Stub.reader Stub.one_page) (Some Stub.fails_always)
                        Stub.good_request Stub.w0))
     = (call_count Stub.w0 + 3)%nat.
Proof.
  destruct (exhaustion_means_three_api_errors (Stub.reader Stub.one_page)
              Stub.fails_always Stub.good_request Stub.resume_pdf Stub.job []
              "Senior Backend Engineer, 5 years Go experience" Stub.w0
              "401 UNAUTHENTICATED")
    as (_ & Hans & Hcount);
    [validate | reflexivity | reflexivity | discriminate | reflexivity |].
  split; [exact Hans | exact Hcount].
Defined.

(** [X16], witness: a body one byte longer than the limit. *)
Lemma oversized_body_raises_witness :
  analyze_resume (Stub.reader Stub.one_page) (Some Stub.fails_twice)
    Stub.oversized_request Stub.w0
  = (Raise RequestEntityTooLarge, Stub.w0).
Proof.
  apply (oversized_body_raises (Stub.reader Stub.one_page) Stub.fails_twice
           Stub.oversized_request Stub.w0).
  reflexivity.
Defined.
